(** * The DynamoDB writer of lib/output/writer/dynamodb.go

    A shallow embedding of [NewDynamoDB], [Connect] and [Write], and the
    properties of the writer's specification settled against it.

    Go values are modelled as follows.
    - [time.Duration] and [time.Time] are integers counting nanoseconds
      ([backoff.Stop] is the duration [-1]).
    - A Go [error] is [option error]: [None] is the nil error.
    - Go maps with string keys are [gmap string _]; slices are lists.
    - Everything the writer does to the outside (session, store, clock, timers,
      backoff policy, log) goes through a [World]: the state of the outside
      ([Ext], kept abstract) and the [trace] of the calls made so far.
    - The retry loop of [Write] need not terminate, so it is given fuel;
      [None] means the fuel ran out before the loop was left. *)

From Stdlib Require Import ZArith Ascii String DecimalString.
From stdpp Require Import gmap strings list fin_maps pretty.

Local Open Scope Z_scope.
Local Open Scope string_scope.
Local Open Scope list_scope.

(** ** Go basics *)

Definition Duration := Z.
Definition Time := Z.

(** [types.ErrNotConnected] is a package-level error value; every other error
    met here is made by [errors.New] or [fmt.Errorf] or comes from a library,
    and carries its message. *)
Inductive error :=
| ErrNotConnected
| errorString (s : string).

(** The text printed for [%v]. [ErrNotConnected] is declared in lib/types; its
    text plays no role in what follows. *)
Definition Error (e : error) : string :=
  match e with
  | ErrNotConnected => "not connected to target source or sink"
  | errorString s => s
  end.

Definition nl : string := String "010"%char EmptyString.

(** [%v] of a Go [int]. *)
Definition itoa (n : nat) : string := pretty n.

(** ** The part of the AWS SDK's data model that the writer touches *)

Module dynamodb.

Record AttributeValue := mkAttributeValue { S : string }.

Record PutRequest := mkPutRequest { Item : gmap string AttributeValue }.

Record WriteRequest := mkWriteRequest { PutRequest_ : PutRequest }.

Record BatchWriteItemInput := mkBatchWriteItemInput
  { RequestItems : gmap string (list WriteRequest) }.

Record BatchWriteItemOutput := mkBatchWriteItemOutput
  { UnprocessedItems : gmap string (list WriteRequest) }.

Record DescribeTableInput := mkDescribeTableInput { TableName : string }.

(** Pointer fields that [Connect] tests against nil are options. *)
Record TableDescription := mkTableDescription { TableStatus : option string }.

Record DescribeTableOutput := mkDescribeTableOutput
  { Table : option TableDescription }.

Definition TableStatusActive : string := "ACTIVE".

End dynamodb.

Module backoff.
(** [const Stop time.Duration = -1] *)
Definition Stop : Duration := -1.
End backoff.

(** [time.RFC3339Nano] *)
Definition RFC3339Nano : string := "2006-01-02T15:04:05.999999999Z07:00".

(** A channel as returned by [time.After]. *)
Inductive Chan := TimerChan (d : Duration).

(** ** The world outside the writer *)

(** What a call of the writer can do to the outside, in the order it does it. *)
Inductive Event :=
| EvGetSession
| EvDescribeTable (input : dynamodb.DescribeTableInput)
| EvBatchWriteItem (input : dynamodb.BatchWriteItemInput)
| EvNextBackOff (wait : Duration)
| EvReset
| EvNow (t : Time)
| EvAfter (d : Duration)
| EvRecv (c : Chan)
| EvInfof (s : string)
| EvErrorf (s : string).

(** The collaborators of the writer: code of the repository outside this file
    (session, retries, text, message, log, metrics) and libraries (the AWS
    SDK, cenkalti/backoff, package time). They are parameters of the model.
    Those with effects act on the outside state [Ext]. *)
Class Collaborators := {
  Ext : Type;
  (* lib/util/aws/session and the embedded sessionConfig *)
  sessionConfig : Type;
  Session : Type;
  GetSession : sessionConfig → Ext → (Session + error) * Ext;
  (* dynamodbiface.DynamoDBAPI, the two methods used, and dynamodb.New *)
  DynamoDBAPI : Type;
  New : Session → DynamoDBAPI;
  DescribeTable : DynamoDBAPI → dynamodb.DescribeTableInput → Ext →
    (option dynamodb.DescribeTableOutput * option error) * Ext;
  BatchWriteItem : DynamoDBAPI → dynamodb.BatchWriteItemInput → Ext →
    (dynamodb.BatchWriteItemOutput + error) * Ext;
  (* lib/util/retries and backoff.BackOff *)
  retries_Config : Type;
  BackOff : Type;
  Get_backoff : retries_Config → BackOff + error;
  NextBackOff : BackOff → Ext → (Duration * BackOff) * Ext;
  Reset : BackOff → Ext → BackOff * Ext;
  (* lib/log and lib/metrics *)
  Modular : Type;
  NewModule : Modular → string → Modular;
  metrics_Type : Type;
  (* lib/types, lib/message and lib/util/text *)
  Part : Type;
  InterpolatedString : Type;
  NewInterpolatedString : string → InterpolatedString;
  Lock : list Part → nat → list Part;
  Get : InterpolatedString → list Part → string;
  (* package time *)
  ParseDuration : string → Duration + error;
  Now : Ext → Time * Ext;
  Format : Time → string → string;
}.

(** [Time.Add], away from the ends of the representable range. *)
Definition Add (t : Time) (d : Duration) : Time := t + d.

Section Writer.

Context {env : Collaborators}.

(** A [types.Message] is its sequence of parts. *)
Definition Message := list Part.

Record World := mkWorld { ext : Ext; trace : list Event }.

(** *** A state monad over the world *)

Definition M (A : Type) : Type := World → A * World.

Definition ret {A} (a : A) : M A := λ w, (a, w).

Definition bind {A B} (m : M A) (k : A → M B) : M B :=
  λ w, let (a, w') := m w in k a w'.

Notation "'let*' x := m 'in' k" := (bind m (λ x, k))
  (at level 10, x binder, k at level 200).
Notation "m ;; k" := (bind m (λ _, k))
  (at level 100, right associativity).

(** An effect of a collaborator, recorded in the trace once it has answered. *)
Definition call {A} (f : Ext → A * Ext) (ev : A → Event) : M A :=
  λ w, let (a, e) := f (ext w) in
       (a, {| ext := e; trace := trace w ++ [ev a] |}).

(** An effect that leaves the outside state alone. *)
Definition emit (ev : Event) : M unit :=
  λ w, (tt, {| ext := ext w; trace := trace w ++ [ev] |}).

(** [time.After d] starts a timer and returns its channel at once. *)
Definition time_After (d : Duration) : M Chan :=
  emit (EvAfter d) ;; ret (TimerChan d).

(** [<-c]: the goroutine is suspended until [c] delivers. *)
Definition chan_recv (c : Chan) : M unit := emit (EvRecv c).

Definition time_Now : M Time := call Now EvNow.

(** ** The writer *)

Record DynamoDBConfig := mkDynamoDBConfig {
  sessionConfig_ : sessionConfig;
  Table : string;
  StringColumns : gmap string string;
  TTL : string;
  TTLKey : string;
  Config : retries_Config;
}.

Record DynamoDB := mkDynamoDB {
  client : option DynamoDBAPI;
  conf : DynamoDBConfig;
  log : Modular;
  stats : metrics_Type;
  backoff_ : BackOff;
  table : string;
  ttl : Duration;
  strColumns : gmap string InterpolatedString;
}.

Definition set_client (c : option DynamoDBAPI) (d : DynamoDB) : DynamoDB :=
  mkDynamoDB c (conf d) (log d) (stats d) (backoff_ d) (table d) (ttl d)
    (strColumns d).

Definition set_backoff (b : BackOff) (d : DynamoDB) : DynamoDB :=
  mkDynamoDB (client d) (conf d) (log d) (stats d) b (table d) (ttl d)
    (strColumns d).

Definition set_ttl (t : Duration) (d : DynamoDB) : DynamoDB :=
  mkDynamoDB (client d) (conf d) (log d) (stats d) (backoff_ d) (table d) t
    (strColumns d).

Definition set_strColumns (m : gmap string InterpolatedString) (d : DynamoDB)
  : DynamoDB :=
  mkDynamoDB (client d) (conf d) (log d) (stats d) (backoff_ d) (table d)
    (ttl d) m.

(** [for k, v := range conf.StringColumns { db.strColumns[k] = ... }] *)
Definition compile_columns (cols : gmap string string)
    (acc : gmap string InterpolatedString) : gmap string InterpolatedString :=
  map_fold (λ k v m, <[k := NewInterpolatedString v]> m) acc cols.

(** [NewDynamoDB]: the writer, or the error it is refused with. *)
Definition NewDynamoDB (conf : DynamoDBConfig) (log : Modular)
    (stats : metrics_Type) : M (DynamoDB + error) :=
  match Get_backoff (Config conf) with
  | inr err =>
      ret (inr (errorString ("failed to parse retry fields: " +:+ Error err)))
  | inl boff =>
      let db := {| client := None;
                   conf := conf;
                   log := NewModule log ".output.dynamodb";
                   stats := stats;
                   table := Table conf;
                   backoff_ := boff;
                   ttl := 0;
                   strColumns := ∅ |} in
      if decide (size (StringColumns conf) = 0%nat) then
        ret (inr (errorString "you must provide at least one column"))
      else
        let db := set_strColumns
                    (compile_columns (StringColumns conf) (strColumns db)) db in
        if decide (TTL conf ≠ EmptyString) then
          match ParseDuration (TTL conf) with
          | inr err =>
              ret (inr (errorString ("failed to parse TTL: " +:+ Error err)))
          | inl ttl => ret (inl (set_ttl ttl db))
          end
        else ret (inl db)
  end.

(** The readiness test of [Connect]:
    [out == nil || out.Table == nil || out.Table.TableStatus == nil ||
     *out.Table.TableStatus != dynamodb.TableStatusActive]. *)
Definition not_active (out : option dynamodb.DescribeTableOutput) : bool :=
  match out with
  | None => true
  | Some o =>
      match dynamodb.Table o with
      | None => true
      | Some t =>
          match dynamodb.TableStatus t with
          | None => true
          | Some s => bool_decide (s ≠ dynamodb.TableStatusActive)
          end
      end
  end.

(** [Connect]: the returned error and the writer as the call leaves it. *)
Definition Connect (d : DynamoDB) : M (option error * DynamoDB) :=
  match client d with
  | Some _ => ret (None, d)
  | None =>
      let* r := call (GetSession (sessionConfig_ (conf d)))
                     (λ _, EvGetSession) in
      match r with
      | inr err => ret (Some err, d)
      | inl sess =>
          let client := New sess in
          let input := dynamodb.mkDescribeTableInput (table d) in
          let* r := call (DescribeTable client input)
                         (λ _, EvDescribeTable input) in
          match r with
          | (_, Some err) => ret (Some err, d)
          | (out, None) =>
              if not_active out then
                ret (Some (errorString ("dynamodb table '" +:+ Table (conf d)
                                          +:+ "' must be active")), d)
              else
                let d := set_client (Some client) d in
                emit (EvInfof ("Sending messages to DynamoDB table: "
                                 +:+ Table (conf d) +:+ nl)) ;;
                ret (None, d)
          end
      end
  end.

(** *** [Write]: rendering *)

(** The TTL attribute, attached first:
    [if d.ttl != 0 && d.conf.TTLKey != "" { items[d.conf.TTLKey] = ... }]. *)
Definition ttl_enabled (d : DynamoDB) : bool :=
  bool_decide (ttl d ≠ 0) && bool_decide (TTLKey (conf d) ≠ EmptyString).

Definition ttl_item (d : DynamoDB)
  : M (gmap string dynamodb.AttributeValue) :=
  if ttl_enabled d then
    let* now := time_Now in
    ret (<[TTLKey (conf d) :=
             dynamodb.mkAttributeValue (Format (Add now (ttl d)) RFC3339Nano)]>
           ∅)
  else ret ∅.

(** [for k, v := range d.strColumns { items[k] = v.Get(message.Lock(msg, i)) }] *)
Definition column_items (d : DynamoDB) (msg : Message) (i : nat)
    (items : gmap string dynamodb.AttributeValue)
  : gmap string dynamodb.AttributeValue :=
  map_fold (λ k v items,
              <[k := dynamodb.mkAttributeValue (Get v (Lock msg i))]> items)
           items (strColumns d).

(** The body of the closure given to [msg.Iter], for the part at index [i]. *)
Definition render (d : DynamoDB) (msg : Message) (i : nat)
  : M dynamodb.WriteRequest :=
  let* items := ttl_item d in
  let items := column_items d msg i items in
  ret (dynamodb.mkWriteRequest (dynamodb.mkPutRequest items)).

(** [msg.Iter]: the closure is run on every part, in order; here it never
    returns an error, so the iteration never stops early. *)
Fixpoint Iter (d : DynamoDB) (msg : Message) (i : nat) (parts : list Part)
    (writeReqs : list dynamodb.WriteRequest) : M (list dynamodb.WriteRequest) :=
  match parts with
  | [] => ret writeReqs
  | _ :: parts =>
      let* wr := render d msg i in
      Iter d msg (Datatypes.S i) parts (writeReqs ++ [wr])
  end.

(** *** [Write]: the retry loop *)

(** How one pass through the loop body ends. *)
Inductive Control := Break | Continue.

(** The state the loop carries: the pending requests, [err], the writer. *)
Record LoopState := mkLoopState {
  writeReqs : list dynamodb.WriteRequest;
  err : option error;
  writer : DynamoDB;
}.

(** [d.backoff.NextBackOff()] *)
Definition backoff_NextBackOff (d : DynamoDB) : M (Duration * DynamoDB) :=
  let* r := call (NextBackOff (backoff_ d)) (λ r, EvNextBackOff (fst r)) in
  ret (fst r, set_backoff (snd r) d).

(** [d.backoff.Reset()] *)
Definition backoff_Reset (d : DynamoDB) : M DynamoDB :=
  let* b := call (Reset (backoff_ d)) (λ _, EvReset) in
  ret (set_backoff b d).

(** [batchResult.UnprocessedItems[*d.table]]: a missing key reads as nil. *)
Definition unprocessed (d : DynamoDB) (out : dynamodb.BatchWriteItemOutput)
  : list dynamodb.WriteRequest :=
  default [] (dynamodb.UnprocessedItems out !! table d).

(** What the loop body does once [wait], [writeReqs] and [err] are settled:
    [if err != nil { if wait == backoff.Stop { break }; time.After(wait) }]. *)
Definition after_attempt (wait : Duration) (st : LoopState)
  : M (Control * LoopState) :=
  match err st with
  | Some _ =>
      if decide (wait = backoff.Stop) then ret (Break, st)
      else time_After wait ;; ret (Continue, st)
  | None => ret (Continue, st)
  end.

(** One pass through the body of [for len(writeReqs) > 0]. *)
Definition attempt (c : DynamoDBAPI) (d : DynamoDB)
    (reqs : list dynamodb.WriteRequest) : M (Control * LoopState) :=
  let* r := backoff_NextBackOff d in
  let '(wait, d) := r in
  let input := dynamodb.mkBatchWriteItemInput {[ table d := reqs ]} in
  let* r := call (BatchWriteItem c input) (λ _, EvBatchWriteItem input) in
  let* st :=
    match r with
    | inr e =>
        emit (EvErrorf ("Write multi error: " +:+ Error e +:+ nl)) ;;
        ret (mkLoopState reqs (Some e) d)
    | inl batchResult =>
        let unproc := unprocessed d batchResult in
        if decide (0 < length unproc)%nat then
          ret (mkLoopState unproc
                 (Some (errorString ("failed to set " +:+ itoa (length unproc)
                                       +:+ " items"))) d)
        else ret (mkLoopState [] None d)
    end in
  after_attempt wait st.

(** [for len(writeReqs) > 0 { ... }], with fuel for the passes. *)
Fixpoint loop (fuel : nat) (c : DynamoDBAPI) (st : LoopState) (w : World)
  : option (LoopState * World) :=
  if decide (0 < length (writeReqs st))%nat then
    match fuel with
    | O => None
    | Datatypes.S fuel =>
        match attempt c (writer st) (writeReqs st) w with
        | (Break, st, w) => Some (st, w)
        | (Continue, st, w) => loop fuel c st w
        end
    end
  else Some (st, w).

(** [Write]: the returned error and the writer as the call leaves it, or
    [None] when the loop has not ended within [fuel] passes. *)
Definition Write (fuel : nat) (d : DynamoDB) (msg : Message) (w : World)
  : option (option error * DynamoDB * World) :=
  match client d with
  | None => Some (Some ErrNotConnected, d, w)
  | Some c =>
      let (reqs, w) := Iter d msg 0 msg [] w in
      match loop fuel c (mkLoopState reqs None d) w with
      | None => None
      | Some (st, w) =>
          let (d, w) :=
            match err st with
            | None => backoff_Reset (writer st) w
            | Some _ => (writer st, w)
            end in
          Some (None, d, w)
      end
  end.

(** ** Using the writer *)

(** A caller's call on the writer. *)
Inductive Call := CallConnect | CallWrite (msg : Message).

Definition do_call (fuel : nat) (c : Call) (d : DynamoDB) (w : World)
  : option (option error * DynamoDB * World) :=
  match c with
  | CallConnect => Some (Connect d w)
  | CallWrite msg => Write fuel d msg w
  end.

(** Calls made one after the other, whatever each returns. *)
Fixpoint do_calls (fuel : nat) (cs : list Call) (d : DynamoDB) (w : World)
  : option (DynamoDB * World) :=
  match cs with
  | [] => Some (d, w)
  | c :: cs =>
      match do_call fuel c d w with
      | None => None
      | Some (_, d, w) => do_calls fuel cs d w
      end
  end.

Definition is_DescribeTable (e : Event) : bool :=
  match e with EvDescribeTable _ => true | _ => false end.

Definition is_Recv (e : Event) : bool :=
  match e with EvRecv _ => true | _ => false end.

(** What construction fixes of the writer: everything but the handle and the
    state of the backoff policy. *)
Definition frame (d : DynamoDB) :=
  (conf d, log d, stats d, table d, ttl d, strColumns d).

(** The TTL attribute of the requests rendered for [msg]: the rendering reads
    the clock once for each request, and the request at index [i] holds, under
    the TTL attribute name, the formatted timestamp [stamp] that stands in
    relation [P] to the clock as read for it. *)
Definition ttl_attribute (P : Time → Time → Prop) (d : DynamoDB)
    (msg : Message) (w : World) : Prop :=
  let (reqs, w') := Iter d msg 0 msg [] w in
  ∃ times : list Time,
    trace w' = trace w ++ (EvNow <$> times) ∧
    ∀ i wr, reqs !! i = Some wr →
      ∃ now stamp, times !! i = Some now ∧ P now stamp ∧
        dynamodb.Item (dynamodb.PutRequest_ wr) !! TTLKey (conf d) =
          Some (dynamodb.mkAttributeValue (Format stamp RFC3339Nano)).

(** The invariant asked of construction: a writer that is returned with a TTL
    has a TTL attribute name. *)
Definition ttl_key_required (conf0 : DynamoDBConfig) (log0 : Modular)
    (stats0 : metrics_Type) (w : World) : Prop :=
  match (NewDynamoDB conf0 log0 stats0 w).1 with
  | inl d => ttl d ≠ 0 → TTLKey (conf d) ≠ EmptyString
  | inr _ => True
  end.

(** No request rendered for [msg] holds the TTL attribute name. *)
Definition ttl_absent (d : DynamoDB) (msg : Message) (w : World) : Prop :=
  ∀ wr, wr ∈ (Iter d msg 0 msg [] w).1 →
    dynamodb.Item (dynamodb.PutRequest_ wr) !! TTLKey (conf d) = None.

(** The number of readiness checks a trace holds. *)
Definition readiness_checks (t : list Event) : nat :=
  length (List.filter is_DescribeTable t).

(** The column attributes of the part at index [i]: every column with its
    interpolated value. *)
Definition columns_of (d : DynamoDB) (msg : Message) (i : nat)
  : gmap string dynamodb.AttributeValue :=
  (λ v, dynamodb.mkAttributeValue (Get v (Lock msg i))) <$> strColumns d.

(** The TTL attribute's value for a clock read as [now]. *)
Definition stamp_of (d : DynamoDB) (now : Time) : dynamodb.AttributeValue :=
  dynamodb.mkAttributeValue (Format (Add now (ttl d)) RFC3339Nano).

(** [w'] continues the trace of [w] without any receive from a channel. *)
Definition quiet (w w' : World) : Prop :=
  ∃ evs, trace w' = trace w ++ evs ∧ Forall (λ e, is_Recv e = false) evs.

Definition is_NextBackOff (e : Event) : bool :=
  match e with EvNextBackOff _ => true | _ => false end.

(** *** Closing *)

(** [CloseAsync]: its body is empty. *)
Definition CloseAsync (d : DynamoDB) : M DynamoDB := ret d.

(** [WaitForClose]: returns nil at once, whatever the timeout. *)
Definition WaitForClose (d : DynamoDB) (timeout : Duration)
  : M (option error * DynamoDB) := ret (None, d).

(** A call of any method of the writer. *)
Inductive Op :=
| OpConnect
| OpWrite (msg : Message)
| OpCloseAsync
| OpWaitForClose (timeout : Duration).

Definition do_op (fuel : nat) (o : Op) (d : DynamoDB) (w : World)
  : option (option error * DynamoDB * World) :=
  match o with
  | OpConnect => Some (Connect d w)
  | OpWrite msg => Write fuel d msg w
  | OpCloseAsync => let (d, w) := CloseAsync d w in Some (None, d, w)
  | OpWaitForClose timeout => Some (WaitForClose d timeout w)
  end.

(** Method calls made one after the other, with what each returned. *)
Fixpoint do_ops (fuel : nat) (os : list Op) (d : DynamoDB) (w : World)
  : option (list (option error) * DynamoDB * World) :=
  match os with
  | [] => Some ([], d, w)
  | o :: os =>
      match do_op fuel o d w with
      | None => None
      | Some (r, d, w) =>
          match do_ops fuel os d w with
          | None => None
          | Some (rs, d, w) => Some (r :: rs, d, w)
          end
      end
  end.

Definition is_closing (o : Op) : bool :=
  match o with
  | OpCloseAsync | OpWaitForClose _ => true
  | _ => false
  end.

(** *** Counting in traces *)

Definition is_BatchWriteItem (e : Event) : bool :=
  match e with EvBatchWriteItem _ => true | _ => false end.

Definition is_Now (e : Event) : bool :=
  match e with EvNow _ => true | _ => false end.

Definition is_Reset (e : Event) : bool :=
  match e with EvReset => true | _ => false end.

(** The events that belong to [Connect] alone. *)
Definition is_connecting (e : Event) : bool :=
  match e with
  | EvGetSession | EvDescribeTable _ | EvInfof _ => true
  | _ => false
  end.

(** The events of a pass through the retry loop. *)
Definition is_pass (e : Event) : bool :=
  match e with
  | EvNextBackOff _ | EvBatchWriteItem _ | EvErrorf _ | EvAfter _ => true
  | _ => false
  end.

Definition count (P : Event → bool) (t : list Event) : nat :=
  length (List.filter P t).

(** [w'] continues the trace of [w] with [evs]. *)
Definition continues (w : World) (evs : list Event) (w' : World) : Prop :=
  trace w' = trace w ++ evs.

(** The events a call added: what [w'] has after the trace of [w]. *)
Definition added (w w' : World) : list Event :=
  drop (length (trace w)) (trace w').

End Writer.

Arguments World {env}.
Arguments DynamoDBConfig {env}.
Arguments DynamoDB {env}.
Arguments LoopState {env}.
Arguments Message {env}.
Arguments Op {env}.

(** ** The default configuration *)

(** What [NewDynamoDBConfig] takes from lib/util/retries and
    lib/util/aws/session: the default values of their configurations, the
    fields of [retries.Config] it assigns, and the embedding of a session
    configuration in the writer's [sessionConfig]. *)
Class ConfigDefaults {env : Collaborators} := {
  retries_NewConfig : retries_Config;
  set_MaxRetries : Z → retries_Config → retries_Config;
  set_InitialInterval : string → retries_Config → retries_Config;
  set_MaxInterval : string → retries_Config → retries_Config;
  set_MaxElapsedTime : string → retries_Config → retries_Config;
  session_Config : Type;
  session_NewConfig : session_Config;
  mk_sessionConfig : session_Config → sessionConfig;
}.

Section Defaults.

Context {env : Collaborators} {defaults : ConfigDefaults}.

(** [NewDynamoDBConfig] *)
Definition NewDynamoDBConfig : DynamoDBConfig :=
  let rConf := retries_NewConfig in
  let rConf := set_MaxRetries 3 rConf in
  let rConf := set_InitialInterval "1s" rConf in
  let rConf := set_MaxInterval "5s" rConf in
  let rConf := set_MaxElapsedTime "30s" rConf in
  {| sessionConfig_ := mk_sessionConfig session_NewConfig;
     Table := EmptyString;
     StringColumns := ∅;
     TTL := EmptyString;
     TTLKey := EmptyString;
     Config := rConf |}.

(** A configuration with its table and columns set, as a configuration file
    that gives only these two fields does to the default one. *)
Definition with_table_columns (t : string) (cols : gmap string string)
    (c : DynamoDBConfig) : DynamoDBConfig :=
  {| sessionConfig_ := sessionConfig_ c;
     Table := t;
     StringColumns := cols;
     TTL := TTL c;
     TTLKey := TTLKey c;
     Config := Config c |}.

End Defaults.

(** ** Test doubles

    A scripted store, a scripted backoff policy and a stepping clock, to run
    the writer on concrete inputs. *)

Module stub.

(** One scripted answer of the store to [BatchWriteItem]. *)
Inductive Reply :=
| Fail (msg : string)       (* the call fails with this error *)
| Unprocessed (n : nat).    (* the call succeeds; the last [n] items of every
                               submitted list come back unprocessed *)

Record State := mkState {
  describe : option dynamodb.DescribeTableOutput * option error;
  replies : list Reply;     (* once used up, the store accepts everything *)
  clock : Time;
}.

(** A backoff policy that plays a script of waits and then says [Stop];
    [Reset] rewinds it. *)
Record Script := mkScript { waits : list Duration; left : list Duration }.

Definition next (b : Script) : Duration * Script :=
  match left b with
  | [] => (backoff.Stop, b)
  | d :: l => (d, mkScript (waits b) l)
  end.

Definition rewind (b : Script) : Script := mkScript (waits b) (waits b).

Definition batch (input : dynamodb.BatchWriteItemInput) (s : State)
  : (dynamodb.BatchWriteItemOutput + error) * State :=
  match replies s with
  | [] => (inl (dynamodb.mkBatchWriteItemOutput ∅), s)
  | Fail msg :: rs =>
      (inr (errorString msg), mkState (describe s) rs (clock s))
  | Unprocessed n :: rs =>
      (inl (dynamodb.mkBatchWriteItemOutput
              ((λ l, drop (length l - n) l) <$> dynamodb.RequestItems input)),
       mkState (describe s) rs (clock s))
  end.

(** The clock moves by a microsecond whenever it is read. *)
Definition tick (s : State) : Time * State :=
  (clock s, mkState (describe s) (replies s) (clock s + 1000)).

(** *** Durations: [time.ParseDuration] without fractions

    Signs, decimal integers and the units ns, us, ms, s, m and h, with the
    overflow tests of the library; a fractional part, which the library
    evaluates in floating point, is outside this double and refused. *)

Definition is_digit (c : ascii) : bool :=
  (48 <=? nat_of_ascii c)%nat && (nat_of_ascii c <=? 57)%nat.

Definition is_dot (c : ascii) : bool := Ascii.eqb c "."%char.

Definition invalid (orig : string) : Duration + error :=
  inr (errorString ("time: invalid duration " +:+ orig)).

Definition fraction (orig : string) : Duration + error :=
  inr (errorString ("fraction outside the test double: " +:+ orig)).

(** [leadingInt]: the digits at the front, or [None] on overflow. *)
Fixpoint leadingInt (x : Z) (s : string) : option (Z * string) :=
  match s with
  | String c rest =>
      if is_digit c then
        if (2 ^ 63 / 10 <? x)%Z then None
        else
          let x := x * 10 + (Z.of_nat (nat_of_ascii c) - 48) in
          if (2 ^ 63 <? x)%Z then None else leadingInt x rest
      else Some (x, s)
  | EmptyString => Some (x, s)
  end.

(** The unit: the characters up to the next digit or dot. *)
Fixpoint leadingUnit (s : string) : string * string :=
  match s with
  | String c rest =>
      if is_digit c || is_dot c then (EmptyString, s)
      else let (u, s') := leadingUnit rest in (String c u, s')
  | EmptyString => (EmptyString, s)
  end.

Definition unitMap (u : string) : option Z :=
  if String.eqb u "ns" then Some 1
  else if String.eqb u "us" then Some 1000
  else if String.eqb u "ms" then Some 1000000
  else if String.eqb u "s" then Some 1000000000
  else if String.eqb u "m" then Some 60000000000
  else if String.eqb u "h" then Some 3600000000000
  else None.

Fixpoint components (fuel : nat) (orig s : string) (d : Z) : Z + error :=
  match s with
  | EmptyString => inl d
  | String c _ =>
      match fuel with
      | O => invalid orig
      | Datatypes.S fuel =>
          if is_dot c then fraction orig
          else if negb (is_digit c) then invalid orig
          else
            match leadingInt 0 s with
            | None => invalid orig
            | Some (v, s) =>
                let (u, s) := leadingUnit s in
                if String.prefix "." s then fraction orig
                else if String.eqb u EmptyString then
                  inr (errorString ("time: missing unit in duration " +:+ orig))
                else
                  match unitMap u with
                  | None =>
                      inr (errorString ("time: unknown unit " +:+ u
                                          +:+ " in duration " +:+ orig))
                  | Some unit =>
                      (* v > 1<<63/unit, for a positive unit *)
                      if (2 ^ 63 <? v * unit)%Z then invalid orig
                      else
                        let d := d + v * unit in
                        if (2 ^ 63 <? d)%Z then invalid orig
                        else components fuel orig s d
                  end
            end
      end
  end.

Definition parse (orig : string) : Duration + error :=
  let (neg, s) :=
    match orig with
    | String c rest =>
        if Ascii.eqb c "-"%char then (true, rest)
        else if Ascii.eqb c "+"%char then (false, rest)
        else (false, orig)
    | EmptyString => (false, orig)
    end in
  if String.eqb s "0" then inl 0
  else if String.eqb s EmptyString then invalid orig
  else
    match components (String.length s) orig s 0 with
    | inr e => inr e
    | inl d =>
        if neg then inl (- d)
        else if (2 ^ 63 - 1 <? d)%Z then invalid orig
        else inl d
    end.

(** A time as a string: its nanoseconds in decimal. *)
Definition decimal (t : Time) : string :=
  DecimalString.NilZero.string_of_int (Z.to_int t).

(** The retry fields: a script of waits, or fields that do not parse. *)
Definition retries := option (list Duration).

Definition get (c : retries) : Script + error :=
  match c with
  | Some l => inl (mkScript l l)
  | None => inr (errorString "invalid retry fields")
  end.

(** Interpolation: the template followed by the content of the locked part. *)
Definition lock (msg : list string) (i : nat) : list string :=
  match msg !! i with
  | Some p => [p]
  | None => []
  end.

Definition interpolate (template : string) (msg : list string) : string :=
  template +:+ String.concat EmptyString msg.

(** The session configuration says whether a session can be had. *)
Definition session (ok : bool) (s : State) : (unit + error) * State :=
  if ok then (inl tt, s) else (inr (errorString "no credentials"), s).

Definition env : Collaborators := {|
  Ext := State;
  sessionConfig := bool;
  Session := unit;
  GetSession := session;
  DynamoDBAPI := unit;
  New := λ _, tt;
  DescribeTable := λ _ _ s, (describe s, s);
  BatchWriteItem := λ _, batch;
  retries_Config := retries;
  BackOff := Script;
  Get_backoff := get;
  NextBackOff := λ b s, (next b, s);
  Reset := λ b s, (rewind b, s);
  Modular := string;
  NewModule := λ l m, l +:+ m;
  metrics_Type := unit;
  Part := string;
  InterpolatedString := string;
  NewInterpolatedString := λ s, s;
  Lock := lock;
  Get := interpolate;
  ParseDuration := parse;
  Now := tick;
  Format := λ t _, "ns:" +:+ decimal t;
|}.

Definition active : option dynamodb.DescribeTableOutput * option error :=
  (Some (dynamodb.mkDescribeTableOutput
           (Some (dynamodb.mkTableDescription
                    (Some dynamodb.TableStatusActive)))), None).

Definition second : Duration := 1000000000.

(** A configuration, given the columns, the TTL fields and the waits. *)
Definition config (cols : gmap string string) (ttl key : string)
    (r : retries) : @DynamoDBConfig env :=
  {| sessionConfig_ := true : @sessionConfig env;
     Table := "events";
     StringColumns := cols;
     TTL := ttl;
     TTLKey := key;
     Config := r : @retries_Config env |}.

Definition world (rs : list Reply) : @World env :=
  {| ext := mkState active rs 1500000000000000000 : @Ext env; trace := [] |}.

(** A world whose table is still being created. *)
Definition world_creating : @World env :=
  {| ext := mkState (Some (dynamodb.mkDescribeTableOutput
                             (Some (dynamodb.mkTableDescription
                                      (Some "CREATING")))), None)
                    [] 1500000000000000000 : @Ext env;
     trace := [] |}.

Definition cols_id : gmap string string := {[ "id" := "id-" ]}.

(** Columns of which one bears the name used for the TTL attribute. *)
Definition cols_clash : gmap string string := {[ "ttl_at" := "x-" ]}.

(** The writer that [NewDynamoDB] makes of [config cols ttls key (Some waits)]
    when [ttls] parses as [ttl], with [c] for its handle. *)
Definition mk_writer (c : option unit) (cols : gmap string string)
    (ttls : string) (ttl : Duration) (key : string) (waits : list Duration)
  : @DynamoDB env :=
  {| client := c : option (@DynamoDBAPI env);
     conf := config cols ttls key (Some waits);
     log := "benthos.output.dynamodb" : @Modular env;
     stats := tt : @metrics_Type env;
     backoff_ := mkScript waits waits : @BackOff env;
     table := "events";
     ttl := ttl;
     strColumns := cols : gmap string (@InterpolatedString env) |}.

Definition hour : Duration := 3600 * second.

(** The request rendered from the columns [cols_id] for the part ["a"]. *)
Definition req_a : dynamodb.WriteRequest :=
  dynamodb.mkWriteRequest
    (dynamodb.mkPutRequest {[ "id" := dynamodb.mkAttributeValue "id-a" ]}).

(** The request rendered from the columns [cols_clash] for the part ["a"],
    with or without TTL. *)
Definition req_clash : dynamodb.WriteRequest :=
  dynamodb.mkWriteRequest
    (dynamodb.mkPutRequest {[ "ttl_at" := dynamodb.mkAttributeValue "x-a" ]}).

Definition input_a : dynamodb.BatchWriteItemInput :=
  dynamodb.mkBatchWriteItemInput {[ "events" := [req_a] ]}.

(** The retry fields by default: a script of five waits of a second, which
    [MaxRetries] cuts short; the intervals are not looked at. *)
Definition defaults : @ConfigDefaults env := {|
  retries_NewConfig := Some (replicate 5 second) : @retries_Config env;
  set_MaxRetries := λ n c, take (Z.to_nat n) <$> c;
  set_InitialInterval := λ _ c, c;
  set_MaxInterval := λ _ c, c;
  set_MaxElapsedTime := λ _ c, c;
  session_Config := bool;
  session_NewConfig := true;
  mk_sessionConfig := λ ok, ok;
|}.

(** A connected writer without TTL whose policy waits a second, then two, and
    then says Stop. *)
Definition d12 : @DynamoDB env :=
  mk_writer (Some tt) cols_id EmptyString 0 EmptyString [second; 2 * second].

End stub.


(** ** Properties *)

Section Properties.

Context {env : Collaborators}.

Implicit Types (d : DynamoDB) (w : World) (msg : Message).

(** *** Construction *)

(** C6. Constructing a writer from a configuration with no columns fails: with
    the column error when the retry fields parse, with the retry error
    otherwise. No writer is returned and the world is left as it was: nothing
    is asked of the store. *)
Theorem NewDynamoDB_no_columns (conf : DynamoDBConfig) (log : Modular)
    (stats : metrics_Type) w :
  StringColumns conf = ∅ →
  NewDynamoDB conf log stats w =
    (inr (match Get_backoff (Config conf) with
          | inr err =>
              errorString ("failed to parse retry fields: " +:+ Error err)
          | inl _ => errorString "you must provide at least one column"
          end), w).
Proof.
  intros Hcols. unfold NewDynamoDB.
  destruct (Get_backoff (Config conf)) as [boff|e]; [|reflexivity].
  rewrite Hcols, map_size_empty. reflexivity.
Qed.

(** Filling a map from another, key by key, is a left-biased union whatever
    the order in which Go ranges over the keys. *)
Lemma map_fold_insert_fmap {A B} (g : A → B) (m : gmap string A)
    (acc : gmap string B) :
  map_fold (λ k v r, <[k := g v]> r) acc m = (g <$> m) ∪ acc.
Proof.
  apply (map_fold_weak_ind (λ r m, r = (g <$> m) ∪ acc)).
  - by rewrite fmap_empty, (left_id_L ∅ (∪)).
  - intros k v m' r _ ->. by rewrite fmap_insert, insert_union_l.
Qed.

(** What a successful construction returns. *)
Lemma NewDynamoDB_inl (conf0 : DynamoDBConfig) (log0 : Modular)
    (stats0 : metrics_Type) w d w' :
  NewDynamoDB conf0 log0 stats0 w = (inl d, w') →
  w' = w ∧ client d = None ∧ conf d = conf0 ∧ table d = Table conf0 ∧
  strColumns d = NewInterpolatedString <$> StringColumns conf0 ∧
  StringColumns conf0 ≠ ∅ ∧
  ((TTL conf0 = EmptyString ∧ ttl d = 0) ∨
   (TTL conf0 ≠ EmptyString ∧ ParseDuration (TTL conf0) = inl (ttl d))).
Proof.
  unfold NewDynamoDB, compile_columns, ret.
  destruct (Get_backoff _) as [boff|e]; [|discriminate].
  destruct (decide (size _ = _)) as [|Hsz]; [discriminate|].
  assert (StringColumns conf0 ≠ ∅) as Hne.
  { intros Hc. by rewrite Hc, map_size_empty in Hsz. }
  cbn [strColumns]. rewrite map_fold_insert_fmap, (right_id_L ∅ (∪)).
  destruct (decide (TTL conf0 ≠ _)) as [Httl|Httl].
  - destruct (ParseDuration _) as [t|e] eqn:Hp; [|discriminate].
    intros [= <- <-]. simpl. naive_solver.
  - apply dec_stable in Httl. intros [= <- <-]. simpl. naive_solver.
Qed.

(** *** Rendering *)

Lemma render_enabled d msg (i : nat) w :
  ttl_enabled d = true →
  render d msg i w =
    let (now, e) := Now (ext w) in
    (dynamodb.mkWriteRequest
       (dynamodb.mkPutRequest
          (columns_of d msg i ∪ {[ TTLKey (conf d) := stamp_of d now ]})),
     mkWorld e (trace w ++ [EvNow now])).
Proof.
  intros Hen. unfold render, ttl_item, column_items, time_Now, bind, call, ret.
  rewrite Hen. destruct (Now (ext w)) as [now e].
  by rewrite map_fold_insert_fmap, insert_empty.
Qed.

Lemma render_disabled d msg (i : nat) w :
  ttl_enabled d = false →
  render d msg i w =
    (dynamodb.mkWriteRequest (dynamodb.mkPutRequest (columns_of d msg i)), w).
Proof.
  intros Hen. unfold render, ttl_item, column_items, bind, ret.
  rewrite Hen. by rewrite map_fold_insert_fmap, (right_id_L ∅ (∪)).
Qed.

(** The requests [Iter] adds, one for each part and in the order of the
    parts, with the clock readings made on the way. *)
Lemma Iter_enabled d msg :
  ttl_enabled d = true →
  ∀ (parts : list Part) (i : nat) acc w,
    ∃ new times,
      (Iter d msg i parts acc w).1 = acc ++ new ∧
      trace (Iter d msg i parts acc w).2 = trace w ++ (EvNow <$> times) ∧
      length new = length parts ∧
      ∀ j wr, new !! j = Some wr →
        ∃ now, times !! j = Some now ∧
          dynamodb.Item (dynamodb.PutRequest_ wr) =
            columns_of d msg (i + j) ∪ {[ TTLKey (conf d) := stamp_of d now ]}.
Proof.
  intros Hen parts. induction parts as [|p parts IH]; intros i acc w.
  - exists [], []. simpl. rewrite !app_nil_r. naive_solver.
  - simpl. unfold bind. rewrite render_enabled by done.
    destruct (Now (ext w)) as [now e].
    match goal with |- context [Iter d msg ?i' parts ?acc' ?w'] =>
      destruct (IH i' acc' w') as (new & times & -> & -> & Hlen & Hitems) end.
    eexists (_ :: new), (now :: times). simpl.
    rewrite <- !app_assoc. do 2 (split; [done|]). split; [by rewrite Hlen|].
    intros [|j] wr; simpl.
    + intros [= <-]. exists now. by rewrite Nat.add_0_r.
    + intros Hj. destruct (Hitems _ _ Hj) as (now' & ? & ->).
      exists now'. by rewrite Nat.add_succ_r.
Qed.

Lemma Iter_disabled d msg :
  ttl_enabled d = false →
  ∀ (parts : list Part) (i : nat) acc w,
    ∃ new,
      Iter d msg i parts acc w = (acc ++ new, w) ∧
      length new = length parts ∧
      ∀ j wr, new !! j = Some wr →
        dynamodb.Item (dynamodb.PutRequest_ wr) = columns_of d msg (i + j).
Proof.
  intros Hen parts. induction parts as [|p parts IH]; intros i acc w.
  - exists []. simpl. rewrite !app_nil_r. naive_solver.
  - simpl. unfold bind. rewrite render_disabled by done.
    match goal with |- context [Iter d msg ?i' parts ?acc' ?w'] =>
      destruct (IH i' acc' w') as (new & -> & Hlen & Hitems) end.
    eexists (_ :: new). simpl.
    rewrite <- !app_assoc. split; [done|]. split; [by rewrite Hlen|].
    intros [|j] wr; simpl.
    + intros [= <-]. by rewrite Nat.add_0_r.
    + intros Hj. rewrite (Hitems _ _ Hj). by rewrite Nat.add_succ_r.
Qed.

(** *** Connect *)

Lemma Connect_connected d w c :
  client d = Some c → Connect d w = (None, d, w).
Proof. intros Hc. unfold Connect. rewrite Hc. reflexivity. Qed.

(** A failed [Connect] found the writer disconnected and hands it back as it
    was; a successful one hands back a connected writer. *)
Lemma Connect_cases d w r d1 w1 :
  Connect d w = (r, d1, w1) →
  (r = None ∧ is_Some (client d1)) ∨ (is_Some r ∧ d1 = d ∧ client d = None).
Proof.
  unfold Connect. destruct (client d) as [c|] eqn:Hc.
  - intros [= <- <- <-]. left. rewrite Hc. eauto.
  - unfold bind, call, emit, ret.
    destruct (GetSession _ _) as [[sess|e] e1].
    + destruct (DescribeTable _ _ _) as [[out [e|]] e2].
      * intros [= <- <- <-]. right. eauto.
      * destruct (not_active out).
        -- intros [= <- <- <-]. right. eauto.
        -- intros [= <- <- <-]. left. simpl. eauto.
    + intros [= <- <- <-]. right. eauto.
Qed.

Lemma readiness_checks_app (t1 t2 : list Event) :
  readiness_checks (t1 ++ t2) = (readiness_checks t1 + readiness_checks t2)%nat.
Proof. unfold readiness_checks. rewrite List.filter_app, length_app. done. Qed.

(** One [Connect] asks for the table's status at most once. *)
Lemma Connect_readiness_checks d w :
  (readiness_checks (trace (Connect d w).2)
   ≤ readiness_checks (trace w) + 1)%nat.
Proof.
  unfold Connect. destruct (client d) as [c|]; [simpl; lia|].
  unfold bind, call, emit, ret.
  destruct (GetSession _ _) as [[sess|e] e1]; cbn [snd trace].
  - destruct (DescribeTable _ _ _) as [[out [e|]] e2]; cbn [snd trace].
    + rewrite !readiness_checks_app. cbn. lia.
    + destruct (not_active out); cbn [snd trace];
        rewrite !readiness_checks_app; cbn; lia.
  - rewrite readiness_checks_app. cbn. lia.
Qed.

(** *** What Write leaves alone *)

Lemma attempt_frame (c : DynamoDBAPI) d reqs w ctl st w' :
  attempt c d reqs w = (ctl, st, w') →
  client (writer st) = client d ∧ frame (writer st) = frame d.
Proof.
  unfold attempt, backoff_NextBackOff, after_attempt, time_After, bind, call,
    emit, ret.
  destruct (NextBackOff _ _) as [[wait b] e1]. simpl.
  destruct (BatchWriteItem _ _ _) as [[out|e] e2]; simpl.
  - destruct (decide _); simpl.
    + destruct (decide _); intros [= <- <- <-]; done.
    + intros [= <- <- <-]; done.
  - destruct (decide _); intros [= <- <- <-]; done.
Qed.

Lemma loop_frame (fuel : nat) (c : DynamoDBAPI) st w st' w' :
  loop fuel c st w = Some (st', w') →
  client (writer st') = client (writer st) ∧
  frame (writer st') = frame (writer st).
Proof.
  revert st w. induction fuel as [|fuel IH]; intros st w; simpl.
  - destruct (decide _); [discriminate|]. by intros [= <- <-].
  - destruct (decide _); [|by intros [= <- <-]].
    destruct (attempt _ _ _ _) as [[[] st1] w1] eqn:Ha;
      apply attempt_frame in Ha as [Hc Hf].
    + by intros [= <- <-].
    + intros [Hc' Hf']%IH. split; congruence.
Qed.

Lemma Write_frame (fuel : nat) d msg w r d' w' :
  Write fuel d msg w = Some (r, d', w') →
  client d' = client d ∧ frame d' = frame d.
Proof.
  unfold Write. destruct (client d) as [c|] eqn:Hcd; [|by intros [= <- <- <-]].
  rewrite <- Hcd.
  destruct (Iter _ _ _ _ _ _) as [reqs w1].
  destruct (loop _ _ _ _) as [[st w2]|] eqn:Hl; [|discriminate].
  apply loop_frame in Hl as [Hc Hf]. simpl in Hc, Hf.
  destruct (err st).
  - intros [= <- <- <-]. done.
  - unfold backoff_Reset, bind, call, ret.
    destruct (Reset _ _) as [b e1]. intros [= <- <- <-]. done.
Qed.

Lemma Connect_frame d w r d1 w1 :
  Connect d w = (r, d1, w1) → frame d1 = frame d.
Proof.
  intros Hconn. destruct (Connect_cases _ _ _ _ _ Hconn) as [[-> _]|[_ [-> _]]];
    [|done].
  revert Hconn. unfold Connect. destruct (client d) as [c|].
  - by intros [= <- <-].
  - unfold bind, call, emit, ret.
    destruct (GetSession _ _) as [[sess|e] e1]; [|discriminate].
    destruct (DescribeTable _ _ _) as [[out [e|]] e2]; [discriminate|].
    destruct (not_active out); [discriminate|]. by intros [= <- <-].
Qed.

(** Calls of any kind leave alone what construction fixed. *)
Lemma do_calls_frame (fuel : nat) (cs : list Call) d w d' w' :
  do_calls fuel cs d w = Some (d', w') → frame d' = frame d.
Proof.
  revert d w. induction cs as [|c cs IH]; intros d w; simpl.
  - by intros [= <- <-].
  - destruct (do_call fuel c d w) as [[[r d1] w1]|] eqn:Hd; [|discriminate].
    intros ->%IH. destruct c as [|msg]; simpl in Hd.
    + injection Hd as Hd. by eapply Connect_frame.
    + by eapply Write_frame.
Qed.

(** Calls of any kind keep a connected writer connected, with its handle. *)
Lemma do_calls_client (fuel : nat) (cs : list Call) d w d' w' :
  is_Some (client d) →
  do_calls fuel cs d w = Some (d', w') → client d' = client d.
Proof.
  revert d w. induction cs as [|c cs IH]; intros d w Hc; simpl.
  - by intros [= <- <-].
  - destruct (do_call fuel c d w) as [[[r d1] w1]|] eqn:Hd; [|discriminate].
    assert (client d1 = client d) as Hc1.
    { destruct c as [|msg]; simpl in Hd.
      - destruct Hc as [h Hc]. rewrite (Connect_connected _ _ _ Hc) in Hd.
        by injection Hd as <- <- <-.
      - by eapply Write_frame. }
    intros Hcs. rewrite <- Hc1. apply (IH d1 w1); [by rewrite Hc1|done].
Qed.

(** C7. Connect is idempotent. After a successful Connect the writer holds a
    handle, and every later Connect, whatever calls came in between, returns
    success and changes neither the writer (handle included) nor the world: no
    session is made and the table's status is not asked again. Two Connects in
    a row so ask for the status at most once, and both succeed. *)
Theorem Connect_idempotent d w d1 w1 :
  Connect d w = (None, d1, w1) →
  is_Some (client d1) ∧
  (readiness_checks (trace w1) ≤ readiness_checks (trace w) + 1)%nat ∧
  Connect d1 w1 = (None, d1, w1) ∧
  ∀ (fuel : nat) (cs : list Call) d2 w2,
    do_calls fuel cs d1 w1 = Some (d2, w2) →
    client d2 = client d1 ∧ Connect d2 w2 = (None, d2, w2).
Proof.
  intros Hconn.
  assert (is_Some (client d1)) as Hc.
  { destruct (Connect_cases _ _ _ _ _ Hconn) as [[_ ?]|[[e [=]] _]]. done. }
  split; [done|]. split.
  { pose proof (Connect_readiness_checks d w) as Hr.
    rewrite Hconn in Hr. exact Hr. }
  split.
  { destruct Hc as [c Hc]. by eapply Connect_connected. }
  intros fuel cs d2 w2 Hcs.
  pose proof (do_calls_client _ _ _ _ _ _ Hc Hcs) as Hc2.
  split; [done|]. destruct Hc as [c Hc].
  apply (Connect_connected _ _ c). by rewrite Hc2.
Qed.

(** A disconnected writer's Connect starts by asking for a session and, once
    it has one, asks for the status of the writer's table. *)
Lemma Connect_disconnected_trace d w :
  client d = None →
  ∃ evs, trace (Connect d w).2 = trace w ++ EvGetSession :: evs ∧
    ∀ sess e1, GetSession (sessionConfig_ (conf d)) (ext w) = (inl sess, e1) →
      ∃ evs', evs = EvDescribeTable (dynamodb.mkDescribeTableInput (table d))
                      :: evs'.
Proof.
  intros Hc. unfold Connect. rewrite Hc. unfold bind, call, emit, ret.
  destruct (GetSession _ _) as [[sess|e] e1]; simpl.
  - destruct (DescribeTable _ _ _) as [[out [e|]] e2]; simpl.
    + eexists. rewrite <- app_assoc. split; [done|]. eauto.
    + destruct (not_active out); simpl.
      * eexists. rewrite <- app_assoc. split; [done|]. eauto.
      * eexists. rewrite <- !app_assoc. split; [done|]. eauto.
  - eexists. split; [done|]. intros ?? [=].
Qed.

(** C9. Connect is atomic on failure. Whatever made it fail, the writer is
    handed back unchanged and without a handle. A Write that follows is
    refused with ErrNotConnected, and a Connect that follows starts over: it
    asks for a session again and, having one, for the table's status. *)
Theorem Connect_failure_atomic d w (e : error) d1 w1 :
  Connect d w = (Some e, d1, w1) →
  d1 = d ∧ client d1 = None ∧
  (∀ (fuel : nat) msg w2,
     Write fuel d1 msg w2 = Some (Some ErrNotConnected, d1, w2)) ∧
  (∀ w2, ∃ evs, trace (Connect d1 w2).2 = trace w2 ++ EvGetSession :: evs ∧
     ∀ sess e1,
       GetSession (sessionConfig_ (conf d1)) (ext w2) = (inl sess, e1) →
       ∃ evs', evs = EvDescribeTable (dynamodb.mkDescribeTableInput (table d1))
                       :: evs').
Proof.
  intros Hconn.
  destruct (Connect_cases _ _ _ _ _ Hconn) as [[[=] _]|[_ [-> Hc]]].
  split; [done|]. split; [done|]. split.
  - intros fuel msg w2. unfold Write. by rewrite Hc.
  - intros w2. by apply Connect_disconnected_trace.
Qed.

(** *** Construction and rendering together *)

Lemma ttl_attribute_mono (P Q : Time → Time → Prop) d msg w :
  (∀ now stamp, P now stamp → Q now stamp) →
  ttl_attribute P d msg w → ttl_attribute Q d msg w.
Proof.
  intros HPQ. unfold ttl_attribute. destruct (Iter _ _ _ _ _ _) as [reqs w'].
  intros (times & Ht & Hreqs). exists times. split; [done|].
  intros i wr Hi. destruct (Hreqs i wr Hi) as (now & stamp & ? & ? & ?).
  exists now, stamp. auto.
Qed.

(** C3 (amended). Construction never looks at the TTL attribute name. A
    configuration with columns, retry fields that parse and a TTL that is
    empty or parses is accepted whatever the name is, empty or not; the
    writer's TTL is the parsed duration, or zero when the TTL is empty. When
    the duration is zero or the name is empty, TTL is silently off: a request
    is rendered from the columns alone, without a reading of the clock. *)
Theorem NewDynamoDB_ttl_key_unchecked (conf0 : DynamoDBConfig) (log0 : Modular)
    (stats0 : metrics_Type) w (boff : BackOff) :
  Get_backoff (Config conf0) = inl boff →
  StringColumns conf0 ≠ ∅ →
  (TTL conf0 = EmptyString ∨ ∃ t, ParseDuration (TTL conf0) = inl t) →
  ∃ d, NewDynamoDB conf0 log0 stats0 w = (inl d, w) ∧
    conf d = conf0 ∧
    ttl d = (if decide (TTL conf0 = EmptyString) then 0
             else match ParseDuration (TTL conf0) with
                  | inl t => t
                  | inr _ => 0
                  end) ∧
    (ttl d = 0 ∨ TTLKey conf0 = EmptyString →
     ∀ msg (i : nat) w',
       render d msg i w' =
         (dynamodb.mkWriteRequest (dynamodb.mkPutRequest (columns_of d msg i)),
          w')).
Proof.
  intros Hb Hcols Httl.
  assert (∃ d, NewDynamoDB conf0 log0 stats0 w = (inl d, w)) as [d Hd].
  { unfold NewDynamoDB, ret. rewrite Hb.
    destruct (decide (size _ = _)) as [Hsz|]; [by apply map_size_empty_iff in Hsz|].
    destruct (decide (TTL conf0 ≠ _)) as [Hne|]; [|eauto].
    destruct Httl as [|[t ->]]; [done|eauto]. }
  exists d. split; [done|].
  destruct (NewDynamoDB_inl _ _ _ _ _ _ Hd) as (_ & _ & Hconf & _ & _ & _ & Hd').
  split; [done|]. split.
  - destruct Hd' as [[-> ->]|[? ->]]; by destruct (decide _).
  - intros Hoff msg i w'. apply render_disabled. unfold ttl_enabled.
    rewrite Hconf. destruct Hoff as [->| ->].
    + by rewrite bool_decide_eq_false_2 by auto.
    + rewrite (bool_decide_eq_false_2 (EmptyString ≠ EmptyString)) by auto.
      apply andb_false_r.
Qed.

(** C10. The attribute names of a rendered request. For a writer built by
    NewDynamoDB, after any calls on it, Write renders one request for each
    part of the message; the request's attribute names are the configured
    column names, and the TTL attribute name with them exactly when the TTL
    is not zero and the name is not empty. Every column holds its
    interpolated value, also a column named as the TTL attribute: the column
    value takes the place of the timestamp. *)
Theorem rendered_attribute_names (conf0 : DynamoDBConfig) (log0 : Modular)
    (stats0 : metrics_Type) w0 d0 w0' (fuel : nat) (cs : list Call) w1 d w2
    msg w :
  NewDynamoDB conf0 log0 stats0 w0 = (inl d0, w0') →
  do_calls fuel cs d0 w1 = Some (d, w2) →
  let reqs := (Iter d msg 0 msg [] w).1 in
  length reqs = length msg ∧
  ∀ (i : nat) wr, reqs !! i = Some wr →
    dom (dynamodb.Item (dynamodb.PutRequest_ wr)) =
      dom (StringColumns conf0) ∪
      (if bool_decide (ttl d ≠ 0) && bool_decide (TTLKey conf0 ≠ EmptyString)
       then {[ TTLKey conf0 ]} else ∅) ∧
    ∀ k tpl, StringColumns conf0 !! k = Some tpl →
      dynamodb.Item (dynamodb.PutRequest_ wr) !! k =
        Some (dynamodb.mkAttributeValue
                (Get (NewInterpolatedString tpl) (Lock msg i))).
Proof.
  intros Hnew Hcalls reqs.
  destruct (NewDynamoDB_inl _ _ _ _ _ _ Hnew) as (_ & _ & Hconf & _ & Hcols & _).
  apply do_calls_frame in Hcalls. unfold frame in Hcalls.
  assert (conf d = conf0) as Hconf' by congruence.
  assert (strColumns d = NewInterpolatedString <$> StringColumns conf0)
    as Hcols' by congruence.
  assert (∀ i, dom (columns_of d msg i) = dom (StringColumns conf0)) as Hdom.
  { intros i. unfold columns_of. by rewrite Hcols', !dom_fmap_L. }
  assert (∀ i k tpl, StringColumns conf0 !! k = Some tpl →
            columns_of d msg i !! k =
              Some (dynamodb.mkAttributeValue
                      (Get (NewInterpolatedString tpl) (Lock msg i)))) as Hlook.
  { intros i k tpl Hk. unfold columns_of.
    by rewrite Hcols', !lookup_fmap, Hk. }
  assert (bool_decide (ttl d ≠ 0) && bool_decide (TTLKey conf0 ≠ EmptyString)
          = ttl_enabled d) as -> by (unfold ttl_enabled; by rewrite Hconf').
  subst reqs. destruct (ttl_enabled d) eqn:Hen.
  - destruct (Iter_enabled d msg Hen msg 0%nat [] w)
      as (new & times & -> & _ & Hlen & Hitems).
    split; [done|]. intros i wr Hi.
    destruct (Hitems i wr Hi) as (now & _ & ->). split.
    + by rewrite dom_union_L, Hdom, dom_singleton_L, Hconf'.
    + intros k tpl Hk. apply lookup_union_Some_l. eauto.
  - destruct (Iter_disabled d msg Hen msg 0%nat [] w) as (new & -> & Hlen & Hitems).
    split; [done|]. intros i wr Hi. rewrite (Hitems i wr Hi). split.
    + by rewrite Hdom, (right_id_L ∅ (∪)).
    + eauto.
Qed.

(** C8 (amended). The TTL attribute, when its name is not the name of a
    column. With a TTL that is not zero and a name that is not empty, every
    rendered request holds under that name the RFC3339Nano form of the clock,
    as read when the request was rendered, plus the TTL; for a TTL that is not
    negative this timestamp lies between that reading [now] and
    [now + ttl + ε]. With a zero TTL no rendered request holds the name. *)
Theorem ttl_attribute_rendered d msg w :
  TTLKey (conf d) ∉ dom (strColumns d) →
  (ttl d ≠ 0 → TTLKey (conf d) ≠ EmptyString →
   ttl_attribute (λ now stamp, stamp = Add now (ttl d)) d msg w ∧
   ((0 ≤ ttl d)%Z → ∀ ε : Z, (0 ≤ ε)%Z →
    ttl_attribute (λ now stamp, (now ≤ stamp ≤ now + ttl d + ε)%Z) d msg w)) ∧
  (ttl d = 0 → ttl_absent d msg w).
Proof.
  intros Hfresh.
  assert (∀ i, columns_of d msg i !! TTLKey (conf d) = None) as Hnone.
  { intros i. unfold columns_of. rewrite lookup_fmap.
    apply not_elem_of_dom in Hfresh. by rewrite Hfresh. }
  split.
  - intros Httl Hkey.
    assert (ttl_attribute (λ now stamp, stamp = Add now (ttl d)) d msg w) as Hst.
    { assert (ttl_enabled d = true) as Hen.
      { unfold ttl_enabled. by rewrite !bool_decide_eq_true_2. }
      unfold ttl_attribute.
      destruct (Iter_enabled d msg Hen msg 0%nat [] w)
        as (new & times & Hreqs & Htr & _ & Hitems).
      destruct (Iter _ _ _ _ _ _) as [reqs w']. simpl in Hreqs, Htr. subst reqs.
      exists times. split; [done|]. intros i wr Hi.
      destruct (Hitems i wr Hi) as (now & Hnow & ->).
      exists now, (Add now (ttl d)). do 2 (split; [done|]).
      rewrite lookup_union_r by apply Hnone. by rewrite lookup_singleton_eq. }
    split; [done|]. intros Hpos ε Hε.
    eapply ttl_attribute_mono; [|exact Hst].
    intros now stamp ->. unfold Add. lia.
  - intros Httl wr Hwr.
    assert (ttl_enabled d = false) as Hen.
    { unfold ttl_enabled. by rewrite bool_decide_eq_false_2 by auto. }
    destruct (Iter_disabled d msg Hen msg 0%nat [] w) as (new & Hreqs & _ & Hitems).
    rewrite Hreqs in Hwr. simpl in Hwr.
    apply list_elem_of_lookup in Hwr as [i Hi].
    by rewrite (Hitems i wr Hi).
Qed.

(** *** The retry loop *)

(** A failed attempt, of either kind, ends the same way: the loop is left when
    the policy said Stop, and otherwise a timer for the wait is started and the
    loop goes on. *)
Lemma after_attempt_failed (wait : Duration) (st : LoopState) w :
  is_Some (err st) →
  after_attempt wait st w =
    if decide (wait = backoff.Stop) then (Break, st, w)
    else (Continue, st, mkWorld (ext w) (trace w ++ [EvAfter wait])).
Proof.
  intros [e He]. unfold after_attempt. rewrite He.
  destruct (decide _); [done|]. destruct w; reflexivity.
Qed.

(** An attempt that the store fails as a whole. *)
Lemma attempt_transport_error (c : DynamoDBAPI) d reqs w wait b e1 e e2 :
  NextBackOff (backoff_ d) (ext w) = ((wait, b), e1) →
  let input := dynamodb.mkBatchWriteItemInput {[ table d := reqs ]} in
  BatchWriteItem c input e1 = (inr e, e2) →
  attempt c d reqs w =
    after_attempt wait (mkLoopState reqs (Some e) (set_backoff b d))
      (mkWorld e2 (trace w ++ [EvNextBackOff wait; EvBatchWriteItem input;
                               EvErrorf ("Write multi error: " +:+ Error e
                                           +:+ nl)])).
Proof.
  intros Hn input Hb. unfold attempt, backoff_NextBackOff, bind, call, emit, ret.
  rewrite Hn. cbn [fst snd ext trace]. change (table (set_backoff b d))
    with (table d). fold input. rewrite Hb. cbn [ext trace].
  by rewrite <- !app_assoc.
Qed.

Lemma loop_step (fuel : nat) (c : DynamoDBAPI) (st : LoopState) w :
  writeReqs st ≠ [] →
  loop (Datatypes.S fuel) c st w =
    match attempt c (writer st) (writeReqs st) w with
    | (Break, st, w) => Some (st, w)
    | (Continue, st, w) => loop fuel c st w
    end.
Proof.
  intros Hne. simpl. destruct (decide _) as [|Hn]; [done|].
  destruct (writeReqs st); [done|]. simpl in Hn. lia.
Qed.

(** C4. An attempt that succeeds with unprocessed items. The pending list
    becomes exactly the unprocessed items of the writer's table, and the error
    kept is "failed to set N items" with N their number. The attempt then ends
    as one failed by a transport error does: on Stop the loop is left, and
    otherwise a timer for the wait is started and the next pass submits the
    unprocessed items, and only them. *)
Theorem attempt_unprocessed (c : DynamoDBAPI) d reqs (err0 : option error) w
    wait b e1 out e2 :
  reqs ≠ [] →
  NextBackOff (backoff_ d) (ext w) = ((wait, b), e1) →
  let input := dynamodb.mkBatchWriteItemInput {[ table d := reqs ]} in
  BatchWriteItem c input e1 = (inl out, e2) →
  let unproc := default [] (dynamodb.UnprocessedItems out !! table d) in
  unproc ≠ [] →
  let st := mkLoopState unproc
              (Some (errorString ("failed to set " +:+ itoa (length unproc)
                                    +:+ " items")))
              (set_backoff b d) in
  let w1 := mkWorld e2 (trace w ++ [EvNextBackOff wait; EvBatchWriteItem input])
  in
  let w2 := mkWorld e2 (trace w1 ++ [EvAfter wait]) in
  attempt c d reqs w =
    (if decide (wait = backoff.Stop) then (Break, st, w1)
     else (Continue, st, w2)) ∧
  (∀ (e : error) w',
     let st_e := mkLoopState reqs (Some e) (set_backoff b d) in
     (after_attempt wait st w').1.1 = (after_attempt wait st_e w').1.1 ∧
     (after_attempt wait st w').2 = (after_attempt wait st_e w').2) ∧
  (∀ fuel : nat,
     loop (Datatypes.S (Datatypes.S fuel)) c (mkLoopState reqs err0 d) w =
       if decide (wait = backoff.Stop) then Some (st, w1)
       else
         match attempt c (set_backoff b d) unproc w2 with
         | (Break, st', w') => Some (st', w')
         | (Continue, st', w') => loop fuel c st' w'
         end).
Proof.
  intros Hreqs Hn input Hb unproc Hun st w1 w2.
  assert (attempt c d reqs w =
            (if decide (wait = backoff.Stop) then (Break, st, w1)
             else (Continue, st, w2))) as Ha.
  { unfold attempt, backoff_NextBackOff, bind, call, emit, ret.
    rewrite Hn. cbn [fst snd ext trace]. change (table (set_backoff b d))
      with (table d). fold input. rewrite Hb. cbn [ext trace].
    unfold unprocessed. change (table (set_backoff b d)) with (table d).
    fold unproc.
    destruct (decide (0 < length unproc)%nat) as [|Hl].
    - fold st. rewrite after_attempt_failed by (simpl; eauto).
      subst w1 w2. cbn [ext trace]. by rewrite <- !app_assoc.
    - destruct unproc; [done|]. simpl in Hl. lia. }
  split; [exact Ha|]. split.
  - intros e w' st_e.
    rewrite !after_attempt_failed by (simpl; eauto).
    by destruct (decide _).
  - intros fuel. rewrite loop_step by done. cbn [writer writeReqs].
    rewrite Ha. destruct (decide _); [done|].
    by rewrite loop_step.
Qed.

(** *** What Write returns and what it asks of the runtime *)

(** On a connected writer Write returns the nil error whenever it returns:
    the [err] of the loop decides about [Reset] only. *)
Lemma Write_connected_nil (fuel : nat) d msg w r d' w' :
  is_Some (client d) → Write fuel d msg w = Some (r, d', w') → r = None.
Proof.
  intros [c Hc]. unfold Write. rewrite Hc.
  destruct (Iter _ _ _ _ _ _) as [reqs w1].
  destruct (loop _ _ _ _) as [[st w2]|]; [|discriminate].
  destruct (match err st with Some _ => _ | None => _ end).
  by intros [= <- _ _].
Qed.

Lemma quiet_refl w : quiet w w.
Proof. exists []. by rewrite app_nil_r. Qed.

Lemma quiet_trans w1 w2 w3 : quiet w1 w2 → quiet w2 w3 → quiet w1 w3.
Proof.
  intros (evs1 & H1 & F1) (evs2 & H2 & F2). exists (evs1 ++ evs2).
  rewrite H2, H1, <- app_assoc. split; [done|]. by apply Forall_app.
Qed.

Lemma quiet_step w (e : Ext) (evs : list Event) :
  forallb (λ e, negb (is_Recv e)) evs = true →
  quiet w (mkWorld e (trace w ++ evs)).
Proof.
  intros Hevs. exists evs. split; [done|].
  apply Forall_forall. intros ev Hin%list_elem_of_In.
  rewrite forallb_forall in Hevs. by apply negb_true_iff, Hevs.
Qed.

Lemma Iter_quiet d msg (parts : list Part) (i : nat) acc w :
  quiet w (Iter d msg i parts acc w).2.
Proof.
  destruct (ttl_enabled d) eqn:Hen.
  - destruct (Iter_enabled d msg Hen parts i acc w) as (? & times & _ & Ht & _).
    exists (EvNow <$> times). split; [done|].
    apply Forall_fmap, Forall_true. done.
  - destruct (Iter_disabled d msg Hen parts i acc w) as (? & -> & _).
    apply quiet_refl.
Qed.

Lemma attempt_quiet (c : DynamoDBAPI) d reqs w : quiet w (attempt c d reqs w).2.
Proof.
  unfold attempt, backoff_NextBackOff, after_attempt, time_After, bind, call,
    emit, ret.
  destruct (NextBackOff _ _) as [[wait b] e1]. cbn [fst snd ext trace].
  destruct (BatchWriteItem _ _ _) as [[out|e] e2];
    repeat first [progress cbn [fst snd ext trace err] | destruct (decide _)];
    rewrite <- ?app_assoc; by apply quiet_step.
Qed.

Lemma loop_quiet (fuel : nat) (c : DynamoDBAPI) st w st' w' :
  loop fuel c st w = Some (st', w') → quiet w w'.
Proof.
  revert st w. induction fuel as [|fuel IH]; intros st w; simpl.
  - destruct (decide _); [discriminate|]. intros [= <- <-]. apply quiet_refl.
  - destruct (decide _); [|intros [= <- <-]; apply quiet_refl].
    pose proof (attempt_quiet c (writer st) (writeReqs st) w) as Hq.
    destruct (attempt _ _ _ _) as [[[] st1] w1].
    + by intros [= <- <-].
    + intros Hl%IH. by eapply quiet_trans.
Qed.

(** Write never waits on a channel: whatever it is given, no receive is among
    the things it does. *)
Lemma Write_quiet (fuel : nat) d msg w r d' w' :
  Write fuel d msg w = Some (r, d', w') → quiet w w'.
Proof.
  unfold Write. destruct (client d) as [c|].
  2:{ intros [= <- <- <-]. apply quiet_refl. }
  pose proof (Iter_quiet d msg msg 0%nat [] w) as Hq1.
  destruct (Iter _ _ _ _ _ _) as [reqs w1].
  destruct (loop _ _ _ _) as [[st w2]|] eqn:Hl; [|discriminate].
  apply loop_quiet in Hl. pose proof (quiet_trans _ _ _ Hq1 Hl) as Hq2.
  destruct (err st).
  - by intros [= <- <- <-].
  - unfold backoff_Reset, bind, call, ret.
    destruct (Reset _ _) as [b e1]. intros [= <- <- <-].
    eapply quiet_trans; [exact Hq2|]. by apply quiet_step.
Qed.

(** C5. Writing on a writer that is not connected returns ErrNotConnected at
    once, for any message: the writer and the world (its trace included) are
    as before, so nothing was rendered and nothing submitted. *)
Theorem Write_not_connected (fuel : nat) d msg w :
  client d = None →
  Write fuel d msg w = Some (Some ErrNotConnected, d, w).
Proof. intros Hc. unfold Write. rewrite Hc. reflexivity. Qed.

End Properties.

(** ** Further properties of the writer *)

Section MoreProperties.

Context {env : Collaborators}.

Implicit Types (d : DynamoDB) (w : World) (msg : Message).

(** *** Counting what a call adds to the trace *)

Lemma count_app (P : Event → bool) (t1 t2 : list Event) :
  count P (t1 ++ t2) = (count P t1 + count P t2)%nat.
Proof. unfold count. by rewrite List.filter_app, length_app. Qed.

Lemma count_none (P Q : Event → bool) (t : list Event) :
  (∀ e, Q e = true → P e = false) →
  Forall (λ e, Q e = true) t → count P t = 0%nat.
Proof.
  intros HPQ Ht. unfold count. induction Ht as [|e t He _ IH]; [done|].
  simpl. by rewrite (HPQ e He).
Qed.

Lemma count_all (P : Event → bool) (t : list Event) :
  Forall (λ e, P e = true) t → count P t = length t.
Proof.
  intros Ht. unfold count. induction Ht as [|e t He _ IH]; [done|].
  simpl. rewrite He. simpl. by rewrite IH.
Qed.

Lemma added_app w w' (evs : list Event) :
  trace w' = trace w ++ evs → added w w' = evs.
Proof. intros Ht. unfold added. rewrite Ht. apply drop_app_length. Qed.

Lemma continues_trans w1 w2 w3 (evs1 evs2 : list Event) :
  continues w1 evs1 w2 → continues w2 evs2 w3 →
  continues w1 (evs1 ++ evs2) w3.
Proof. unfold continues. intros H1 H2. by rewrite H2, H1, <- app_assoc. Qed.

(** A pass makes one call of the policy, then one submission, and after
    those at most an error log and a timer. *)
Lemma attempt_continues (c : DynamoDBAPI) d reqs w :
  ∃ wait tail,
    continues w
      (EvNextBackOff wait
         :: EvBatchWriteItem
              (dynamodb.mkBatchWriteItemInput {[ table d := reqs ]})
         :: tail)
      (attempt c d reqs w).2 ∧
    Forall (λ e, is_pass e = true) tail ∧
    count is_NextBackOff tail = 0%nat ∧ count is_BatchWriteItem tail = 0%nat.
Proof.
  unfold attempt, backoff_NextBackOff, after_attempt, time_After, bind, call,
    emit, ret, continues.
  destruct (NextBackOff _ _) as [[wait b] e1]. cbn [fst snd ext trace].
  change (table (set_backoff b d)) with (table d). exists wait.
  destruct (BatchWriteItem _ _ _) as [[out|e] e2];
    repeat first [progress cbn [fst snd ext trace err] | destruct (decide _)];
    rewrite <- ?app_assoc; eexists; (split; [reflexivity|]);
    repeat constructor.
Qed.

(** The passes of the loop: as many calls of the policy as submissions, at
    most one of each for a unit of fuel, and nothing but events of a pass. *)
Lemma loop_continues (fuel : nat) (c : DynamoDBAPI) st w st' w' :
  loop fuel c st w = Some (st', w') →
  ∃ evs, continues w evs w' ∧
    Forall (λ e, is_pass e = true) evs ∧
    count is_NextBackOff evs = count is_BatchWriteItem evs ∧
    (count is_BatchWriteItem evs ≤ fuel)%nat.
Proof.
  revert st w. induction fuel as [|fuel IH]; intros st w; simpl.
  - destruct (decide _); [discriminate|]. intros [= <- <-].
    exists []. unfold continues. rewrite app_nil_r. repeat split; auto. 
  - destruct (decide _).
    2:{ intros [= <- <-]. exists []. unfold continues. rewrite app_nil_r.
        repeat split; auto. cbn. lia. }
    destruct (attempt_continues c (writer st) (writeReqs st) w)
      as (wait & tail & Hc & Ht & Hn & Hb).
    destruct (attempt _ _ _ _) as [[ctl st1] w1]. cbn [snd] in Hc.
    assert (∀ rest, Forall (λ e, is_pass e = true) rest →
              count is_NextBackOff rest = count is_BatchWriteItem rest →
              (count is_BatchWriteItem rest ≤ fuel)%nat →
              let evs := (EvNextBackOff wait
                 :: EvBatchWriteItem (dynamodb.mkBatchWriteItemInput
                      {[ table (writer st) := writeReqs st ]}) :: tail) ++ rest in
              Forall (λ e, is_pass e = true) evs ∧
              count is_NextBackOff evs = count is_BatchWriteItem evs ∧
              (count is_BatchWriteItem evs ≤ Datatypes.S fuel)%nat) as Hsum.
    { intros rest Hr Heq Hle evs. subst evs. split.
      - apply Forall_app. split; [|done]. by repeat constructor.
      - rewrite !count_app.
        change (count is_NextBackOff (EvNextBackOff wait :: ?a :: tail))
          with (Datatypes.S (count is_NextBackOff tail)).
        change (count is_BatchWriteItem (EvNextBackOff wait
                  :: EvBatchWriteItem ?i :: tail))
          with (Datatypes.S (count is_BatchWriteItem tail)).
        rewrite Hn, Hb. lia. }
    destruct ctl.
    + intros [= <- <-]. eexists. split; [exact Hc|].
      specialize (Hsum [] ltac:(by constructor) eq_refl ltac:(cbn; lia)).
      cbn zeta in Hsum. by rewrite app_nil_r in Hsum.
    + intros (evs & Hc' & Hf & Heq & Hle)%IH. eexists. split.
      * exact (continues_trans _ _ _ _ _ Hc Hc').
      * by apply Hsum.
Qed.

(** Rendering adds the readings of the clock and nothing else: one for each
    part with TTL on, none with TTL off. *)
Lemma Iter_continues d msg (parts : list Part) (i : nat) acc w :
  ∃ times, continues w (EvNow <$> times) (Iter d msg i parts acc w).2 ∧
    length times = if ttl_enabled d then length parts else 0%nat.
Proof.
  destruct (ttl_enabled d) eqn:Hen.
  - revert i acc w. induction parts as [|p parts IH]; intros i acc w.
    + exists []. unfold continues. simpl. by rewrite app_nil_r.
    + simpl. unfold bind. rewrite render_enabled by done.
      destruct (Now (ext w)) as [now e].
      match goal with |- context [Iter d msg ?i' parts ?acc' ?w'] =>
        destruct (IH i' acc' w') as (times & Hc & Hl) end.
      exists (now :: times). split; [|simpl; by rewrite Hl].
      unfold continues in *. rewrite Hc. simpl. by rewrite <- app_assoc.
  - destruct (Iter_disabled d msg Hen parts i acc w) as (? & -> & _).
    exists []. unfold continues. simpl. by rewrite app_nil_r.
Qed.

(** How the loop is left: with nothing pending and no error, or with
    requests pending and the error of the last attempt. *)
Lemma attempt_exit (c : DynamoDBAPI) d reqs w :
  reqs ≠ [] →
  let '(ctl, st, _) := attempt c d reqs w in
  (writeReqs st = [] ∧ err st = None ∧ ctl = Continue) ∨
  (writeReqs st ≠ [] ∧ is_Some (err st)).
Proof.
  intros Hne.
  unfold attempt, backoff_NextBackOff, after_attempt, time_After, bind, call,
    emit, ret.
  destruct (NextBackOff _ _) as [[wait b] e1]. cbn [fst snd ext trace].
  destruct (BatchWriteItem _ _ _) as [[out|e] e2]; cbn [fst snd ext trace err].
  - destruct (decide _) as [Hl|Hl]; cbn [err].
    + assert (unprocessed (set_backoff b d) out ≠ []) as Hu.
      { intros Hu. rewrite Hu in Hl. simpl in Hl. lia. }
      destruct (decide _); right; simpl; eauto.
    + left. done.
  - destruct (decide _); right; simpl; eauto.
Qed.

Lemma loop_exit (fuel : nat) (c : DynamoDBAPI) st w st' w' :
  (writeReqs st = [] → err st = None) →
  loop fuel c st w = Some (st', w') →
  (writeReqs st' = [] ∧ err st' = None) ∨
  (writeReqs st' ≠ [] ∧ is_Some (err st')).
Proof.
  revert st w. induction fuel as [|fuel IH]; intros st w Hinit; simpl.
  - destruct (decide _) as [|Hl]; [discriminate|]. intros [= <- <-].
    left. destruct (writeReqs st); [auto|simpl in Hl; lia].
  - destruct (decide _) as [Hl|Hl].
    2:{ intros [= <- <-]. left.
        destruct (writeReqs st); [auto|simpl in Hl; lia]. }
    assert (writeReqs st ≠ []) as Hne.
    { intros Hn. rewrite Hn in Hl. simpl in Hl. lia. }
    pose proof (attempt_exit c (writer st) (writeReqs st) w Hne) as Ha.
    destruct (attempt _ _ _ _) as [[ctl st1] w1].
    destruct ctl.
    + intros [= <- <-]. destruct Ha as [(_ & _ & [=])|Ha]. by right.
    + apply IH. destruct Ha as [(_ & ? & _)|[Hn _]]; [done|]. by intros.
Qed.

(** What a Write that returns has added to the trace: the readings of the
    clock, then the passes of the loop, then the reset if the loop left no
    error. *)
Lemma Write_continues (fuel : nat) d msg w (c : DynamoDBAPI) r d' w' :
  client d = Some c →
  Write fuel d msg w = Some (r, d', w') →
  ∃ (times : list Time) (passes : list Event) st w1,
    loop fuel c (mkLoopState (Iter d msg 0 msg [] w).1 None d)
      (Iter d msg 0 msg [] w).2 = Some (st, w1) ∧
    continues w
      ((EvNow <$> times) ++ passes
         ++ match err st with None => [EvReset] | Some _ => [] end) w' ∧
    length times = (if ttl_enabled d then length msg else 0%nat) ∧
    Forall (λ e, is_pass e = true) passes ∧
    count is_NextBackOff passes = count is_BatchWriteItem passes ∧
    (count is_BatchWriteItem passes ≤ fuel)%nat ∧
    match err st with
    | None => (d', w') = backoff_Reset (writer st) w1
    | Some _ => d' = writer st ∧ w' = w1
    end.
Proof.
  intros Hc. unfold Write. rewrite Hc.
  destruct (Iter_continues d msg msg 0%nat [] w) as (times & Hct & Hlt).
  destruct (Iter _ _ _ _ _ _) as [reqs w0]. cbn [fst snd] in *.
  destruct (loop _ _ _ _) as [[st w1]|] eqn:Hl; [|discriminate].
  destruct (loop_continues _ _ _ _ _ _ Hl) as (passes & Hcp & Hf & Heq & Hle).
  intros Hw. exists times, passes, st, w1. split; [done|].
  pose proof (continues_trans _ _ _ _ _ Hct Hcp) as Hc2.
  destruct (err st).
  - injection Hw as <- <- <-. rewrite app_nil_r. done.
  - destruct (backoff_Reset (writer st) w1) as [d2 w2] eqn:Hr.
    injection Hw as <- <- <-. split; [|done].
    revert Hr. unfold backoff_Reset, bind, call, ret.
    destruct (Reset _ _) as [b e1]. intros [= <- <-].
    unfold continues in *. cbn [trace]. by rewrite Hc2, <- !app_assoc.
Qed.

Lemma Iter_length d msg (parts : list Part) (i : nat) acc w :
  length (Iter d msg i parts acc w).1 = (length acc + length parts)%nat.
Proof.
  destruct (ttl_enabled d) eqn:Hen.
  - destruct (Iter_enabled d msg Hen parts i acc w)
      as (new & ? & Hr & _ & Hl & _).
    by rewrite Hr, length_app, Hl.
  - destruct (Iter_disabled d msg Hen parts i acc w) as (new & Hr & Hl & _).
    rewrite Hr. cbn [fst]. by rewrite length_app, Hl.
Qed.

Lemma Write_disconnected (fuel : nat) d msg w :
  client d = None → Write fuel d msg w = Some (Some ErrNotConnected, d, w).
Proof. intros Hc. unfold Write. by rewrite Hc. Qed.

Lemma loop_done (fuel : nat) (c : DynamoDBAPI) st w :
  writeReqs st = [] → loop fuel c st w = Some (st, w).
Proof. intros Hn. destruct fuel; simpl; by rewrite Hn. Qed.

(** *** Write *)

(** X1. An empty message on a connected writer: nothing is rendered and
    nothing submitted; the policy is reset and nil returned, whatever the
    fuel. *)
Theorem Write_empty_message (fuel : nat) d w (c : DynamoDBAPI) :
  client d = Some c →
  Write fuel d [] w =
    Some (None, (backoff_Reset d w).1, (backoff_Reset d w).2) ∧
  added w (backoff_Reset d w).2 = [EvReset].
Proof.
  intros Hc. split.
  - unfold Write. rewrite Hc. cbn [Iter ret]. rewrite loop_done by done.
    cbn [err writer]. by destruct (backoff_Reset d w).
  - apply added_app. unfold backoff_Reset, bind, call, ret.
    by destruct (Reset _ _).
Qed.

(** X2. A store that accepts everything at once. If the first submission
    succeeds and reports nothing unprocessed under the writer's table, then
    Write makes that one submission, of all the rendered requests under the
    table's name, resets the policy and returns nil. Neither the wait the
    policy answered (Stop included) nor what the store reports under other
    table names plays a part, and one pass is all the loop needs. *)
Theorem Write_all_accepted (fuel : nat) d msg w (c : DynamoDBAPI)
    (wait : Duration) b e1 out e2 b' e3 :
  client d = Some c →
  msg ≠ [] →
  let reqs := (Iter d msg 0 msg [] w).1 in
  let w1 := (Iter d msg 0 msg [] w).2 in
  let input := dynamodb.mkBatchWriteItemInput {[ table d := reqs ]} in
  NextBackOff (backoff_ d) (ext w1) = ((wait, b), e1) →
  BatchWriteItem c input e1 = (inl out, e2) →
  default [] (dynamodb.UnprocessedItems out !! table d) = [] →
  Reset b e2 = (b', e3) →
  Write (Datatypes.S fuel) d msg w =
    Some (None, set_backoff b' d,
          mkWorld e3 (trace w1 ++ [EvNextBackOff wait; EvBatchWriteItem input;
                                   EvReset])).
Proof.
  intros Hc Hmsg reqs w1 input Hn Hb Hu Hr.
  assert (reqs ≠ []) as Hreqs.
  { intros Hnil. pose proof (Iter_length d msg msg 0%nat [] w) as Hl.
    fold reqs in Hl. rewrite Hnil in Hl. destruct msg; [done|]. simpl in Hl. lia. }
  unfold Write. rewrite Hc.
  destruct (Iter d msg 0 msg [] w) as [reqs0 w0] eqn:Hi.
  cbn [fst snd] in reqs, w1. subst reqs w1.
  rewrite loop_step by done. cbn [writer writeReqs].
  unfold attempt, backoff_NextBackOff, bind, call, emit, ret.
  rewrite Hn. cbn [fst snd ext trace].
  change (table (set_backoff b d)) with (table d). fold input. rewrite Hb.
  unfold unprocessed. change (table (set_backoff b d)) with (table d).
  rewrite Hu. cbn [length]. destruct (decide (0 < 0)%nat) as [|_]; [lia|].
  unfold after_attempt, ret. cbn [err]. cbv beta iota.
  rewrite loop_done by done.
  cbn [err writer]. unfold backoff_Reset, bind, call, ret.
  cbn [backoff_ set_backoff ext trace]. rewrite Hr.
  by rewrite <- !app_assoc.
Qed.

(** X3. Stop ends the loop. When the policy answers Stop, the pass in which
    it does is the last one, whether its submission succeeds or not: the
    loop returns after exactly one submission, for any fuel of at least
    one. *)
Theorem loop_Stop_ends (fuel : nat) (c : DynamoDBAPI) d reqs
    (err0 : option error) w b e1 :
  reqs ≠ [] →
  NextBackOff (backoff_ d) (ext w) = ((backoff.Stop, b), e1) →
  ∃ st w',
    loop (Datatypes.S fuel) c (mkLoopState reqs err0 d) w = Some (st, w') ∧
    writer st = set_backoff b d ∧
    count is_BatchWriteItem (added w w') = 1%nat ∧
    count is_NextBackOff (added w w') = 1%nat.
Proof.
  intros Hreqs Hn. rewrite loop_step by done. cbn [writer writeReqs].
  unfold attempt, backoff_NextBackOff, bind, call, emit, ret.
  rewrite Hn. cbn [fst snd ext trace].
  destruct (BatchWriteItem _ _ _) as [[out|e] e2]; cbn [ext trace].
  - destruct (decide _) as [Hl|Hl].
    + rewrite after_attempt_failed by (simpl; eauto).
      destruct (decide _) as [_|]; [|done].
      do 2 eexists. split; [done|]. split; [done|].
      erewrite added_app by (cbn [trace]; by rewrite <- app_assoc). done.
    + unfold after_attempt, ret. cbn [err]. cbv beta iota.
      rewrite loop_done by done.
      do 2 eexists. split; [done|]. split; [done|].
      erewrite added_app by (cbn [trace]; by rewrite <- app_assoc). done.
  - rewrite after_attempt_failed by (simpl; eauto).
    destruct (decide _) as [_|]; [|done].
    do 2 eexists. split; [done|]. split; [done|].
    erewrite added_app by (cbn [trace]; by rewrite <- !app_assoc). done.
Qed.

(** X4. A submission that fails as a whole. The store's error is logged as
    "Write multi error: ..." and kept in [err]; the pending list stays as it
    was. On Stop the loop is left; otherwise a timer is started and the next
    pass submits the same requests again. *)
Theorem attempt_failed_resubmits (c : DynamoDBAPI) d reqs
    (err0 : option error) w (wait : Duration) b e1 (e : error) e2 :
  reqs ≠ [] →
  NextBackOff (backoff_ d) (ext w) = ((wait, b), e1) →
  let input := dynamodb.mkBatchWriteItemInput {[ table d := reqs ]} in
  BatchWriteItem c input e1 = (inr e, e2) →
  let st := mkLoopState reqs (Some e) (set_backoff b d) in
  let w1 := mkWorld e2 (trace w ++ [EvNextBackOff wait; EvBatchWriteItem input;
                                    EvErrorf ("Write multi error: " +:+ Error e
                                                +:+ nl)]) in
  let w2 := mkWorld e2 (trace w1 ++ [EvAfter wait]) in
  attempt c d reqs w =
    (if decide (wait = backoff.Stop) then (Break, st, w1)
     else (Continue, st, w2)) ∧
  ∀ fuel : nat,
    loop (Datatypes.S (Datatypes.S fuel)) c (mkLoopState reqs err0 d) w =
      if decide (wait = backoff.Stop) then Some (st, w1)
      else
        match attempt c (set_backoff b d) reqs w2 with
        | (Break, st', w') => Some (st', w')
        | (Continue, st', w') => loop fuel c st' w'
        end.
Proof.
  intros Hreqs Hn input Hb st w1 w2.
  assert (attempt c d reqs w =
            (if decide (wait = backoff.Stop) then (Break, st, w1)
             else (Continue, st, w2))) as Ha.
  { rewrite (attempt_transport_error c d reqs w wait b e1 e e2 Hn Hb).
    fold input st w1. rewrite after_attempt_failed by (simpl; eauto).
    by destruct (decide _). }
  split; [exact Ha|]. intros fuel.
  rewrite loop_step by done. cbn [writer writeReqs]. rewrite Ha.
  destruct (decide _); [done|]. by rewrite loop_step.
Qed.

(** X5. The policy is reset exactly when nothing is left pending. A Write on
    a connected writer that returns has left the loop either with no request
    pending, and then its last act is the one reset of the policy, or with
    requests pending and an error, and then the policy is not reset and stays
    as the loop left it. *)
Theorem Write_resets_iff_drained (fuel : nat) d msg w (c : DynamoDBAPI) r d' w' :
  client d = Some c →
  Write fuel d msg w = Some (r, d', w') →
  ∃ st w1,
    loop fuel c (mkLoopState (Iter d msg 0 msg [] w).1 None d)
      (Iter d msg 0 msg [] w).2 = Some (st, w1) ∧
    ((writeReqs st = [] ∧ (d', w') = backoff_Reset (writer st) w1 ∧
      count is_Reset (added w w') = 1%nat ∧ last (trace w') = Some EvReset) ∨
     (writeReqs st ≠ [] ∧ is_Some (err st) ∧ d' = writer st ∧ w' = w1 ∧
      count is_Reset (added w w') = 0%nat)).
Proof.
  intros Hc Hw.
  destruct (Write_continues _ _ _ _ _ _ _ _ Hc Hw)
    as (times & passes & st & w1 & Hl & Hcont & _ & Hp & _ & _ & Hend).
  exists st, w1. split; [done|].
  assert (count is_Reset (EvNow <$> times) = 0%nat) as Ht.
  { apply (count_none _ is_Now); [by intros []|].
    apply Forall_fmap, Forall_true. done. }
  assert (count is_Reset passes = 0%nat) as Hps.
  { apply (count_none _ is_pass); [by intros []|done]. }
  pose proof Hl as Hex. apply loop_exit in Hex; [|done].
  destruct Hex as [[Hnil He]|[Hne He]].
  - left. rewrite He in Hcont, Hend. split; [done|]. split; [done|]. split.
    + rewrite (added_app _ _ _ Hcont), !count_app, Ht, Hps. done.
    + unfold continues in Hcont. rewrite Hcont, !app_assoc. apply last_snoc.
  - right. destruct He as [e He]. rewrite He in Hcont, Hend.
    destruct Hend as [-> ->]. split; [done|]. split; [eauto|].
    do 2 (split; [done|]).
    rewrite (added_app _ _ _ Hcont), !count_app, Ht, Hps. done.
Qed.

(** X6. What Write leaves alone. Whatever it is given and however it ends,
    Write changes nothing of the writer but the state of its backoff policy:
    handle, configuration, table, TTL and columns are as before. It never
    asks for a session or for the table's status, and writes no info log. *)
Theorem Write_keeps_writer (fuel : nat) d msg w r d' w' :
  Write fuel d msg w = Some (r, d', w') →
  client d' = client d ∧ frame d' = frame d ∧
  count is_connecting (added w w') = 0%nat.
Proof.
  intros Hw. destruct (Write_frame _ _ _ _ _ _ _ Hw) as [Hc Hf].
  do 2 (split; [done|]).
  destruct (client d) as [c|] eqn:Hcd.
  - destruct (Write_continues _ _ _ _ _ _ _ _ Hcd Hw)
      as (times & passes & st & w1 & _ & Hcont & _ & Hp & _).
    rewrite (added_app _ _ _ Hcont), !count_app.
    rewrite (count_none is_connecting is_Now (EvNow <$> times));
      [|by intros []|apply Forall_fmap, Forall_true; done].
    rewrite (count_none is_connecting is_pass passes); [|by intros []|done].
    by destruct (err st).
  - rewrite (Write_disconnected fuel d msg w Hcd) in Hw.
    injection Hw as _ _ <-. unfold added. by rewrite drop_all.
Qed.

(** X7. The clock and the policy in a Write. On a connected writer, a Write
    that returns has read the clock once for each part of the message when
    TTL is on and never when it is off, all readings coming before anything
    else it does; and it has asked the policy for a wait exactly as many
    times as it has submitted a batch. *)
Theorem Write_clock_and_policy (fuel : nat) d msg w (c : DynamoDBAPI) r d' w' :
  client d = Some c →
  Write fuel d msg w = Some (r, d', w') →
  (∃ (times : list Time) (rest : list Event),
     added w w' = (EvNow <$> times) ++ rest ∧
     length times = (if ttl_enabled d then length msg else 0%nat) ∧
     count is_Now rest = 0%nat) ∧
  count is_NextBackOff (added w w') = count is_BatchWriteItem (added w w').
Proof.
  intros Hc Hw.
  destruct (Write_continues _ _ _ _ _ _ _ _ Hc Hw)
    as (times & passes & st & w1 & _ & Hcont & Hlen & Hp & Heq & _).
  rewrite (added_app _ _ _ Hcont). split.
  - exists times, (passes ++ match err st with
                             | None => [EvReset] | Some _ => [] end).
    split; [done|]. split; [done|]. rewrite count_app.
    rewrite (count_none is_Now is_pass passes); [|by intros []|done].
    by destruct (err st).
  - rewrite !count_app, Heq.
    rewrite (count_none is_NextBackOff is_Now (EvNow <$> times));
      [|by intros []|apply Forall_fmap, Forall_true; done].
    rewrite (count_none is_BatchWriteItem is_Now (EvNow <$> times));
      [|by intros []|apply Forall_fmap, Forall_true; done].
    by destruct (err st).
Qed.

(** *** Connect *)

(** The readiness test lets through one answer only: a table description
    whose status is there and reads ACTIVE. *)
Lemma not_active_false (out : option dynamodb.DescribeTableOutput) :
  not_active out = false ↔
  out = Some (dynamodb.mkDescribeTableOutput
                (Some (dynamodb.mkTableDescription
                         (Some dynamodb.TableStatusActive)))).
Proof.
  unfold not_active. split.
  - destruct out as [[[[[s|]]|]]|]; try discriminate.
    intros Hs%bool_decide_eq_false. apply dec_stable in Hs. by subst s.
  - intros ->. cbn. by apply bool_decide_eq_false_2; intros [].
Qed.


(** X9. Which error a failed Connect returns. The error of the session is
    returned as it is, and then the table's status is not asked for; the
    error of DescribeTable is returned as it is, whatever else it answered;
    and any answer other than an ACTIVE table gives the error
    "dynamodb table 'T' must be active" with T the configured table name. *)
Theorem Connect_errors d w :
  client d = None →
  let input := dynamodb.mkDescribeTableInput (table d) in
  (∀ e e1,
     GetSession (sessionConfig_ (conf d)) (ext w) = (inr e, e1) →
     Connect d w = (Some e, d, mkWorld e1 (trace w ++ [EvGetSession]))) ∧
  (∀ sess e1 out e e2,
     GetSession (sessionConfig_ (conf d)) (ext w) = (inl sess, e1) →
     DescribeTable (New sess) input e1 = ((out, Some e), e2) →
     Connect d w =
       (Some e, d,
        mkWorld e2 (trace w ++ [EvGetSession; EvDescribeTable input]))) ∧
  (∀ sess e1 out e2,
     GetSession (sessionConfig_ (conf d)) (ext w) = (inl sess, e1) →
     DescribeTable (New sess) input e1 = ((out, None), e2) →
     out ≠ Some (dynamodb.mkDescribeTableOutput
                   (Some (dynamodb.mkTableDescription
                            (Some dynamodb.TableStatusActive)))) →
     Connect d w =
       (Some (errorString ("dynamodb table '" +:+ Table (conf d)
                             +:+ "' must be active")), d,
        mkWorld e2 (trace w ++ [EvGetSession; EvDescribeTable input]))).
Proof.
  intros Hc input. unfold Connect. rewrite Hc.
  unfold bind, call, emit, ret. fold input. split; [|split].
  - intros e e1 ->. done.
  - intros sess e1 out e e2 -> . cbn [ext trace]. intros ->.
    cbn [ext trace]. by rewrite <- !app_assoc.
  - intros sess e1 out e2 ->. cbn [ext trace]. intros -> Hout.
    cbn [ext trace].
    destruct (not_active out) eqn:Hna; [by rewrite <- !app_assoc|].
    by apply not_active_false in Hna.
Qed.

(** *** Construction *)

(** X10. When construction succeeds. NewDynamoDB returns a writer exactly
    when the retry fields parse, there is at least one column, and the TTL
    is empty or parses as a duration. Nothing else of the configuration is
    looked at: neither the table name nor the TTL attribute name. *)
Theorem NewDynamoDB_succeeds_iff (conf0 : DynamoDBConfig) (log0 : Modular)
    (stats0 : metrics_Type) w :
  (∃ d, NewDynamoDB conf0 log0 stats0 w = (inl d, w)) ↔
  (∃ boff, Get_backoff (Config conf0) = inl boff) ∧
  StringColumns conf0 ≠ ∅ ∧
  (TTL conf0 = EmptyString ∨ ∃ t, ParseDuration (TTL conf0) = inl t).
Proof.
  split.
  - intros [d Hd].
    destruct (NewDynamoDB_inl _ _ _ _ _ _ Hd) as (_ & _ & _ & _ & _ & Hcols & Ht).
    split; [|split; [done|]].
    + revert Hd. unfold NewDynamoDB.
      destruct (Get_backoff _) as [boff|e]; [eauto|discriminate].
    + destruct Ht as [[? _]|[_ ?]]; eauto.
  - intros ([boff Hb] & Hcols & Ht). unfold NewDynamoDB, ret. rewrite Hb.
    destruct (decide (size _ = _)) as [Hsz|];
      [by apply map_size_empty_iff in Hsz|].
    destruct (decide (TTL conf0 ≠ _)) as [Hne|]; [|eauto].
    destruct Ht as [|[t ->]]; [done|eauto].
Qed.

(** X11. Which error a refused construction returns. The checks are made in
    the order retry fields, columns, TTL, and the first that fails gives the
    error: "failed to parse retry fields: ..." whatever the rest of the
    configuration, then "you must provide at least one column" whatever the
    TTL, then "failed to parse TTL: ..." with the error of the parser. The
    world is left as it was. *)
Theorem NewDynamoDB_errors (conf0 : DynamoDBConfig) (log0 : Modular)
    (stats0 : metrics_Type) w :
  (∀ e, Get_backoff (Config conf0) = inr e →
     NewDynamoDB conf0 log0 stats0 w =
       (inr (errorString ("failed to parse retry fields: " +:+ Error e)), w)) ∧
  (∀ boff, Get_backoff (Config conf0) = inl boff →
     StringColumns conf0 = ∅ →
     NewDynamoDB conf0 log0 stats0 w =
       (inr (errorString "you must provide at least one column"), w)) ∧
  (∀ boff e, Get_backoff (Config conf0) = inl boff →
     StringColumns conf0 ≠ ∅ →
     TTL conf0 ≠ EmptyString →
     ParseDuration (TTL conf0) = inr e →
     NewDynamoDB conf0 log0 stats0 w =
       (inr (errorString ("failed to parse TTL: " +:+ Error e)), w)).
Proof.
  unfold NewDynamoDB, ret. split; [|split].
  - by intros e ->.
  - intros boff -> ->. by rewrite map_size_empty.
  - intros boff e -> Hcols Hne ->.
    destruct (decide (size _ = _)) as [Hsz|];
      [by apply map_size_empty_iff in Hsz|].
    by destruct (decide _).
Qed.

(** X12. A new writer has to be connected first. The writer NewDynamoDB
    returns has no handle: every Write on it, for any message, returns
    ErrNotConnected and leaves writer and world alone. Once a Connect on it
    has succeeded, no Write on the connected writer returns an error. *)
Theorem new_writer_must_connect (conf0 : DynamoDBConfig) (log0 : Modular)
    (stats0 : metrics_Type) w0 d w0' :
  NewDynamoDB conf0 log0 stats0 w0 = (inl d, w0') →
  (∀ (fuel : nat) msg w,
     Write fuel d msg w = Some (Some ErrNotConnected, d, w)) ∧
  (∀ w d1 w1, Connect d w = (None, d1, w1) →
     ∀ (fuel : nat) msg w2 r d2 w3,
       Write fuel d1 msg w2 = Some (r, d2, w3) → r = None).
Proof.
  intros Hnew.
  destruct (NewDynamoDB_inl _ _ _ _ _ _ Hnew) as (_ & Hc & _).
  split.
  - intros fuel msg w. by apply Write_disconnected.
  - intros w d1 w1 Hconn fuel msg w2 r d2 w3 Hw.
    destruct (Connect_cases _ _ _ _ _ Hconn) as [[_ Hc1]|[[e [=]] _]].
    by eapply Write_connected_nil.
Qed.

(** *** Closing *)

(** X13. Closing does nothing. CloseAsync and WaitForClose, whatever the
    timeout, return at once (WaitForClose with nil) and change neither the
    writer nor the world. A sequence of calls on the writer therefore ends
    with the same writer and world as the sequence without its closing
    calls: after closing, a connected writer is still connected and writes
    as before. *)
Theorem closing_changes_nothing (fuel : nat) (os : list Op) d w :
  (λ r, (r.1.2, r.2)) <$> do_ops fuel os d w =
  (λ r, (r.1.2, r.2))
    <$> do_ops fuel (List.filter (λ o, negb (is_closing o)) os) d w.
Proof.
  revert d w. induction os as [|o os IH]; intros d w; [done|].
  destruct o as [|msg| |timeout]; cbn [List.filter is_closing negb do_ops do_op].
  - destruct (Connect d w) as [[r d1] w1]. specialize (IH d1 w1).
    destruct (do_ops fuel os d1 w1) as [[[rs d2] w2]|],
      (do_ops fuel (List.filter _ os) d1 w1) as [[[rs' d2'] w2']|];
      simpl in *; congruence.
  - destruct (Write fuel d msg w) as [[[r d1] w1]|]; [|done].
    specialize (IH d1 w1).
    destruct (do_ops fuel os d1 w1) as [[[rs d2] w2]|],
      (do_ops fuel (List.filter _ os) d1 w1) as [[[rs' d2'] w2']|];
      simpl in *; congruence.
  - unfold CloseAsync, ret. rewrite <- IH.
    by destruct (do_ops fuel os d w) as [[[rs d2] w2]|].
  - unfold WaitForClose, ret. rewrite <- IH.
    by destruct (do_ops fuel os d w) as [[[rs d2] w2]|].
Qed.

End MoreProperties.

Section DefaultsProperties.

Context {env : Collaborators} {defaults : ConfigDefaults}.

(** X14. The default configuration. As NewDynamoDBConfig returns it, it has
    no columns and NewDynamoDB refuses it. With a table name and at least one
    column put in, and nothing else changed, NewDynamoDB accepts it as soon
    as the default retry fields parse: the writer has no handle yet, the
    backoff policy of those fields, the given table, and TTL off. *)
Theorem NewDynamoDBConfig_needs_columns (log0 : Modular)
    (stats0 : metrics_Type) w (boff : BackOff) (t : string)
    (cols : gmap string string) :
  Get_backoff (Config NewDynamoDBConfig) = inl boff →
  cols ≠ ∅ →
  NewDynamoDB NewDynamoDBConfig log0 stats0 w =
    (inr (errorString "you must provide at least one column"), w) ∧
  ∃ d,
    NewDynamoDB (with_table_columns t cols NewDynamoDBConfig) log0 stats0 w =
      (inl d, w) ∧
    client d = None ∧ backoff_ d = boff ∧ table d = t ∧ ttl d = 0 ∧
    ttl_enabled d = false ∧
    dom (strColumns d) = dom cols.
Proof.
  intros Hb Hcols. split.
  - unfold NewDynamoDB, ret. rewrite Hb.
    change (StringColumns NewDynamoDBConfig) with (∅ : gmap string string).
    by rewrite map_size_empty.
  - unfold NewDynamoDB, ret, compile_columns.
    change (Config (with_table_columns t cols NewDynamoDBConfig))
      with (Config NewDynamoDBConfig).
    rewrite Hb. cbn [StringColumns with_table_columns TTL].
    destruct (decide (size cols = _)) as [Hsz|];
      [by apply map_size_empty_iff in Hsz|].
    change (TTL NewDynamoDBConfig) with EmptyString.
    destruct (decide (EmptyString ≠ EmptyString)) as [|_]; [done|].
    eexists. split; [reflexivity|]. cbn.
    rewrite map_fold_insert_fmap, (right_id_L ∅ (∪)), dom_fmap_L.
    repeat split. 
Qed.

End DefaultsProperties.

(** ** The writer on concrete inputs *)

Section Examples.

Local Existing Instance stub.env.
Import stub.

(** Closed equations are settled by evaluation. *)
Ltac vm_refl :=
  match goal with |- _ = ?r => vm_cast_no_check (@eq_refl _ r) end.

(** The double [writer] is what construction and Connect give. *)
Example stub_writer_built :
  NewDynamoDB (config cols_id "1h" "ttl_at" (Some [second])) "benthos" tt
    (world []) =
  (inl (mk_writer None cols_id "1h" hour "ttl_at" [second]), world []).
Proof. vm_refl. Qed.

Example stub_writer_connected :
  Connect (mk_writer None cols_id "1h" hour "ttl_at" [second]) (world []) =
  (None, mk_writer (Some tt) cols_id "1h" hour "ttl_at" [second],
   mkWorld (ext (world []))
     [EvGetSession; EvDescribeTable (dynamodb.mkDescribeTableInput "events");
      EvInfof ("Sending messages to DynamoDB table: events" +:+ nl)]).
Proof. vm_refl. Qed.

(** C1. A store that fails every submission, and a policy that says Stop at
    the third: the loop is left with the request still pending and the
    store's error in [err], and Write returns the nil error, leaving the
    writer as the loop left it. *)
Theorem Write_exhausted_returns_nil :
  let fails := [Fail "throttled"; Fail "throttled"; Fail "throttled"] in
  let failed := EvErrorf ("Write multi error: throttled" +:+ nl) in
  let st := mkLoopState [req_a] (Some (errorString "throttled"))
              (set_backoff (mkScript [second; 2 * second] []) d12) in
  let w1 := mkWorld (mkState active [] 1500000000000000000 : @Ext env)
              [EvNextBackOff second; EvBatchWriteItem input_a; failed;
               EvAfter second;
               EvNextBackOff (2 * second); EvBatchWriteItem input_a; failed;
               EvAfter (2 * second);
               EvNextBackOff backoff.Stop; EvBatchWriteItem input_a; failed] in
  loop 3 tt (mkLoopState [req_a] None d12) (world fails) = Some (st, w1) ∧
  writeReqs st ≠ [] ∧
  Write 3 d12 ["a"] (world fails) = Some (None, writer st, w1).
Proof.
  intros fails failed st w1. split; [vm_refl|]. split; [discriminate|vm_refl].
Qed.

(** C2. A store that fails the first submission and accepts the second. After
    the failure Write starts a timer for the second the policy asked for, and
    goes on to the next submission without receiving from the timer's
    channel: nothing in what it does waits. *)
Theorem Write_retries_without_waiting :
  let w' := mkWorld (mkState active [] 1500000000000000000 : @Ext env)
              [EvNextBackOff second; EvBatchWriteItem input_a;
               EvErrorf ("Write multi error: throttled" +:+ nl);
               EvAfter second;
               EvNextBackOff (2 * second); EvBatchWriteItem input_a;
               EvReset] in
  Write 2 d12 ["a"] (world [Fail "throttled"]) = Some (None, d12, w') ∧
  existsb is_Recv (trace w') = false.
Proof. intros w'. split; vm_refl. Qed.

Lemma cols_id_nonempty : cols_id ≠ ∅.
Proof. apply insert_non_empty. Qed.

(** C3, counterexample: a TTL of one hour and no TTL attribute name. The
    writer is made, with a TTL that is not zero. *)
Lemma ttl_without_key_accepted :
  NewDynamoDB (config cols_id "1h" EmptyString (Some [second])) "benthos" tt
    (world []) =
  (inl (mk_writer None cols_id "1h" hour EmptyString [second]), world []) ∧
  ¬ ttl_key_required (config cols_id "1h" EmptyString (Some [second]))
      "benthos" tt (world []).
Proof.
  assert (NewDynamoDB (config cols_id "1h" EmptyString (Some [second]))
            "benthos" tt (world []) =
          (inl (mk_writer None cols_id "1h" hour EmptyString [second]), world []))
    as Hnew by reflexivity.
  split; [exact Hnew|].
  unfold ttl_key_required. rewrite Hnew. intros Hinv.
  apply Hinv; [discriminate|reflexivity].
Qed.

Lemma NewDynamoDB_ttl_key_unchecked_witness :
  let c := config cols_id "1h" EmptyString (Some [second]) in
  Get_backoff (Config c) = inl (mkScript [second] [second]) ∧
  StringColumns c ≠ ∅ ∧
  (TTL c = EmptyString ∨ ∃ t, ParseDuration (TTL c) = inl t) ∧
  ∃ d, NewDynamoDB c "benthos" tt (world []) = (inl d, world []) ∧
       conf d = c ∧ ttl d = hour.
Proof.
  intros c.
  assert (Get_backoff (Config c) = inl (mkScript [second] [second])) as H1
    by reflexivity.
  assert (StringColumns c ≠ ∅) as H2 by exact cols_id_nonempty.
  assert (TTL c = EmptyString ∨ ∃ t, ParseDuration (TTL c) = inl t) as H3
    by (right; exists hour; reflexivity).
  do 3 (split; [assumption|]).
  destruct (NewDynamoDB_ttl_key_unchecked c "benthos" tt (world []) _ H1 H2 H3)
    as (d & Hd & Hc & Ht & _).
  exists d. do 2 (split; [assumption|]). rewrite Ht. reflexivity.
Defined.

Lemma attempt_unprocessed_witness :
  let w := world [Unprocessed 1] in
  let b := mkScript [second; 2 * second] [2 * second] in
  let out := dynamodb.mkBatchWriteItemOutput {[ "events" := [req_a] ]} in
  let e2 := mkState active [] 1500000000000000000 in
  let input := dynamodb.mkBatchWriteItemInput {[ "events" := [req_a; req_a] ]} in
  [req_a; req_a] ≠ [] ∧
  NextBackOff (backoff_ d12) (ext w) = ((second, b), ext w) ∧
  BatchWriteItem tt input (ext w) = (inl out, e2) ∧
  default [] (dynamodb.UnprocessedItems out !! table d12) ≠ [] ∧
  attempt tt d12 [req_a; req_a] w =
    (Continue,
     mkLoopState [req_a] (Some (errorString "failed to set 1 items"))
       (set_backoff b d12),
     mkWorld e2 [EvNextBackOff second; EvBatchWriteItem input; EvAfter second]).
Proof.
  intros w b out e2 input.
  assert ([req_a; req_a] ≠ []) as H0 by discriminate.
  assert (NextBackOff (backoff_ d12) (ext w) = ((second, b), ext w)) as H1
    by reflexivity.
  assert (BatchWriteItem tt
            (dynamodb.mkBatchWriteItemInput {[ table d12 := [req_a; req_a] ]})
            (ext w) = (inl out, e2)) as H2 by reflexivity.
  assert (default [] (dynamodb.UnprocessedItems out !! table d12) ≠ []) as H3
    by discriminate.
  do 4 (split; [assumption|]).
  destruct (attempt_unprocessed (env := stub.env) tt d12 [req_a; req_a] None w second b (ext w)
              out e2 H0 H1 H2 H3) as (Ha & _).
  rewrite Ha. reflexivity.
Defined.

Lemma Write_not_connected_witness :
  let d := mk_writer None cols_id "1h" hour "ttl_at" [second] in
  client d = None ∧
  Write 0 d ["a"; "b"] (world []) = Some (Some ErrNotConnected, d, world []).
Proof.
  intros d. split; [reflexivity|].
  apply (Write_not_connected 0 d ["a"; "b"] (world [])). reflexivity.
Defined.

Lemma NewDynamoDB_no_columns_witness :
  let c := config ∅ "1h" "ttl_at" (Some [second]) in
  StringColumns c = ∅ ∧
  NewDynamoDB c "benthos" tt (world []) =
    (inr (errorString "you must provide at least one column"), world []).
Proof.
  intros c. split; [reflexivity|].
  apply (NewDynamoDB_no_columns c "benthos" tt (world [])). reflexivity.
Defined.

Lemma Connect_idempotent_witness :
  let d := mk_writer None cols_id "1h" hour "ttl_at" [second] in
  let d1 := mk_writer (Some tt) cols_id "1h" hour "ttl_at" [second] in
  let w1 := (Connect d (world [])).2 in
  Connect d (world []) = (None, d1, w1) ∧
  Connect d1 w1 = (None, d1, w1) ∧
  readiness_checks (trace w1) = 1%nat.
Proof.
  intros d d1 w1.
  assert (Connect d (world []) = (None, d1, w1)) as H1
    by reflexivity.
  split; [assumption|].
  destruct (Connect_idempotent d (world []) d1 w1 H1) as (_ & _ & H2 & _).
  split; [assumption|]. reflexivity.
Defined.

Lemma Connect_failure_atomic_witness :
  let d := mk_writer None cols_id "1h" hour "ttl_at" [second] in
  let e := errorString "dynamodb table 'events' must be active" in
  let w1 := (Connect d world_creating).2 in
  Connect d world_creating = (Some e, d, w1) ∧
  Write 5 d ["a"] w1 = Some (Some ErrNotConnected, d, w1).
Proof.
  intros d e w1.
  assert (Connect d world_creating = (Some e, d, w1)) as H1
    by reflexivity.
  split; [assumption|].
  destruct (Connect_failure_atomic d world_creating e d w1 H1)
    as (_ & _ & H2 & _).
  apply H2.
Defined.

(** C8, counterexample. A column with the name of the TTL attribute: with a
    TTL of one hour the request holds the column's value under that name and
    no timestamp, and with no TTL the request holds the name all the same. And
    a negative TTL puts the timestamp before the reading of the clock. *)
Lemma ttl_attribute_overwritten :
  ¬ ttl_attribute (λ _ _, True)
      (mk_writer (Some tt) cols_clash "1h" hour "ttl_at" [second]) ["a"]
      (world []) ∧
  ¬ ttl_absent
      (mk_writer (Some tt) cols_clash EmptyString 0 "ttl_at" [second]) ["a"]
      (world []) ∧
  ¬ ttl_attribute (λ now stamp, (now ≤ stamp ≤ now + (- hour) + second)%Z)
      (mk_writer (Some tt) cols_id "-1h" (- hour) "ttl_at" [second]) ["a"]
      (world []).
Proof.
  split; [|split].
  - unfold ttl_attribute.
    assert ((Iter (mk_writer (Some tt) cols_clash "1h" hour "ttl_at" [second])
               ["a"] 0 ["a"] [] (world [])).1 = [req_clash]) as Hr
      by vm_refl.
    destruct (Iter _ _ _ _ _ _) as [reqs w']. simpl in Hr. subst reqs.
    intros (times & _ & Hreqs).
    destruct (Hreqs 0%nat _ eq_refl) as (now & stamp & _ & _ & Hv).
    change (Some (dynamodb.mkAttributeValue "x-a") =
            Some (dynamodb.mkAttributeValue ("ns:" +:+ decimal stamp))) in Hv.
    discriminate Hv.
  - unfold ttl_absent. intros Habs.
    assert ((Iter (mk_writer (Some tt) cols_clash EmptyString 0 "ttl_at"
                     [second]) ["a"] 0 ["a"] [] (world [])).1 = [req_clash])
      as Hr by vm_refl.
    rewrite Hr in Habs. specialize (Habs req_clash (list_elem_of_here _ _)).
    change (Some (dynamodb.mkAttributeValue "x-a") = None) in Habs.
    discriminate Habs.
  - unfold ttl_attribute.
    destruct (Iter _ _ _ _ _ _) as [reqs w'] eqn:Hi.
    assert (length reqs = 1%nat) as Hl.
    { change reqs with (reqs, w').1. rewrite <- Hi. vm_refl. }
    clear Hi. intros (times & _ & Hreqs).
    destruct reqs as [|wr reqs]; [discriminate Hl|].
    destruct (Hreqs 0%nat wr eq_refl) as (now & stamp & _ & Hb & _).
    unfold hour, second in Hb. lia.
Qed.

Lemma ttl_attribute_rendered_witness :
  let d := mk_writer (Some tt) cols_id "1h" hour "ttl_at" [second] in
  let d0 := mk_writer (Some tt) cols_id EmptyString 0 "ttl_at" [second] in
  (TTLKey (conf d) ∉ dom (strColumns d)) ∧ ttl d ≠ 0 ∧
  TTLKey (conf d) ≠ EmptyString ∧
  ttl_attribute (λ now stamp, stamp = Add now (ttl d)) d ["a"; "b"] (world []) ∧
  (TTLKey (conf d0) ∉ dom (strColumns d0)) ∧ ttl d0 = 0 ∧
  ttl_absent d0 ["a"; "b"] (world []).
Proof.
  intros d d0.
  assert (TTLKey (conf d) ∉ dom (strColumns d)) as H1.
  { apply not_elem_of_dom. reflexivity. }
  assert (ttl d ≠ 0) as H2 by discriminate.
  assert (TTLKey (conf d) ≠ EmptyString) as H3 by discriminate.
  assert (TTLKey (conf d0) ∉ dom (strColumns d0)) as H4.
  { apply not_elem_of_dom. reflexivity. }
  assert (ttl d0 = 0) as H5 by reflexivity.
  do 3 (split; [assumption|]). split; [|split; [assumption|split; [assumption|]]].
  - destruct (ttl_attribute_rendered d ["a"; "b"] (world []) H1) as (Hon & _).
    apply (Hon H2 H3).
  - destruct (ttl_attribute_rendered d0 ["a"; "b"] (world []) H4) as (_ & Hoff).
    apply (Hoff H5).
Defined.

Lemma rendered_attribute_names_witness :
  let c := config cols_id "1h" "ttl_at" (Some [second]) in
  let d0 := mk_writer None cols_id "1h" hour "ttl_at" [second] in
  let d := mk_writer (Some tt) cols_id "1h" hour "ttl_at" [second] in
  let w2 := (Connect d0 (world [])).2 in
  NewDynamoDB c "benthos" tt (world []) = (inl d0, world []) ∧
  do_calls 0 [CallConnect] d0 (world []) = Some (d, w2) ∧
  length (Iter d ["a"; "b"] 0 ["a"; "b"] [] w2).1 = 2%nat.
Proof.
  intros c d0 d w2.
  assert (NewDynamoDB c "benthos" tt (world []) = (inl d0, world [])) as H1
    by reflexivity.
  assert (do_calls 0 [CallConnect] d0 (world []) = Some (d, w2)) as H2
    by reflexivity.
  do 2 (split; [assumption|]).
  destruct (rendered_attribute_names c "benthos" tt (world []) d0 (world [])
              0 [CallConnect] (world []) d w2 ["a"; "b"] w2 H1 H2) as (Hl & _).
  exact Hl.
Defined.

(** *** The further properties on concrete inputs *)

Local Existing Instance stub.defaults.

Lemma Write_empty_message_witness :
  client d12 = Some tt ∧
  Write 0 d12 [] (world []) =
    Some (None, d12, mkWorld (ext (world [])) [EvReset]).
Proof.
  split; [reflexivity|].
  destruct (Write_empty_message 0 d12 (world []) tt eq_refl) as [Hw _].
  rewrite Hw. vm_refl.
Defined.

Lemma Write_all_accepted_witness :
  let b := mkScript [second; 2 * second] [2 * second] in
  let out := dynamodb.mkBatchWriteItemOutput ∅ in
  let w1 := (Iter d12 ["a"] 0 ["a"] [] (world [])).2 in
  let input :=
    dynamodb.mkBatchWriteItemInput
      {[ table d12 := (Iter d12 ["a"] 0 ["a"] [] (world [])).1 ]} in
  client d12 = Some tt ∧ ["a"] ≠ [] ∧
  NextBackOff (backoff_ d12) (ext w1) = ((second, b), ext (world [])) ∧
  BatchWriteItem tt input (ext (world [])) = (inl out, ext (world [])) ∧
  default [] (dynamodb.UnprocessedItems out !! table d12) = [] ∧
  Reset b (ext (world [])) = (rewind b, ext (world [])) ∧
  Write 1 d12 ["a"] (world []) =
    Some (None, d12,
          mkWorld (ext (world []))
            [EvNextBackOff second; EvBatchWriteItem input_a; EvReset]).
Proof.
  intros b out w1 input.
  assert (client d12 = Some tt) as H0 by reflexivity.
  assert (["a"] ≠ ([] : list string)) as H1 by discriminate.
  assert (NextBackOff (backoff_ d12) (ext w1) = ((second, b), ext (world [])))
    as H2 by vm_refl.
  assert (BatchWriteItem tt input (ext (world [])) = (inl out, ext (world [])))
    as H3 by vm_refl.
  assert (default [] (dynamodb.UnprocessedItems out !! table d12) = []) as H4
    by vm_refl.
  assert (Reset b (ext (world [])) = (rewind b, ext (world []))) as H5
    by vm_refl.
  do 6 (split; [assumption|]).
  rewrite (Write_all_accepted (env := env) 0 d12 ["a"] (world []) tt second b
             (ext (world [])) out (ext (world [])) (rewind b)
             (ext (world [])) H0 H1 H2 H3 H4 H5).
  vm_refl.
Defined.

Lemma loop_Stop_ends_witness :
  let d := mk_writer (Some tt) cols_id EmptyString 0 EmptyString [] in
  let w := world [Fail "throttled"; Fail "throttled"] in
  [req_a] ≠ [] ∧
  NextBackOff (backoff_ d) (ext w) = ((backoff.Stop, mkScript [] []), ext w) ∧
  ∃ st w',
    loop 1 tt (mkLoopState [req_a] None d) w = Some (st, w') ∧
    count is_BatchWriteItem (added w w') = 1%nat.
Proof.
  intros d w.
  assert ([req_a] ≠ []) as H0 by discriminate.
  assert (NextBackOff (backoff_ d) (ext w)
          = ((backoff.Stop, mkScript [] []), ext w)) as H1 by vm_refl.
  do 2 (split; [assumption|]).
  destruct (loop_Stop_ends (env := env) 0 tt d [req_a] None w (mkScript [] [])
              (ext w) H0 H1) as (st & w' & Hl & _ & Hc & _).
  exists st, w'. split; assumption.
Defined.

Lemma attempt_failed_resubmits_witness :
  let w := world [Fail "throttled"] in
  let b := mkScript [second; 2 * second] [2 * second] in
  let e2 := mkState active [] 1500000000000000000 in
  [req_a] ≠ [] ∧
  NextBackOff (backoff_ d12) (ext w) = ((second, b), ext w) ∧
  BatchWriteItem tt (dynamodb.mkBatchWriteItemInput {[ table d12 := [req_a] ]})
    (ext w) = (inr (errorString "throttled"), e2) ∧
  attempt tt d12 [req_a] w =
    (Continue,
     mkLoopState [req_a] (Some (errorString "throttled")) (set_backoff b d12),
     mkWorld e2 [EvNextBackOff second; EvBatchWriteItem input_a;
                 EvErrorf ("Write multi error: throttled" +:+ nl);
                 EvAfter second]).
Proof.
  intros w b e2.
  assert ([req_a] ≠ []) as H0 by discriminate.
  assert (NextBackOff (backoff_ d12) (ext w) = ((second, b), ext w)) as H1
    by vm_refl.
  assert (BatchWriteItem tt
            (dynamodb.mkBatchWriteItemInput {[ table d12 := [req_a] ]})
            (ext w) = (inr (errorString "throttled"), e2)) as H2 by vm_refl.
  do 3 (split; [assumption|]).
  destruct (attempt_failed_resubmits (env := env) tt d12 [req_a] None w second
              b (ext w) (errorString "throttled") e2 H0 H1 H2) as [Ha _].
  rewrite Ha. vm_refl.
Defined.

Lemma Write_resets_iff_drained_witness :
  let w := world [Fail "throttled"] in
  let r := Write 2 d12 ["a"] w in
  client d12 = Some tt ∧
  r = Some (None, d12, (default (None, d12, w) r).2) ∧
  last (trace (default (None, d12, w) r).2) = Some EvReset.
Proof.
  intros w r.
  assert (client d12 = Some tt) as H0 by reflexivity.
  assert (r = Some (None, d12, (default (None, d12, w) r).2)) as H1 by vm_refl.
  do 2 (split; [assumption|]).
  destruct (Write_resets_iff_drained (env := env) 2 d12 ["a"] w tt None d12
              (default (None, d12, w) r).2 H0 H1)
    as (st & w1 & _ & [(_ & _ & _ & Hlast)|(Hne & _ & _ & _ & Hc)]).
  - exact Hlast.
  - vm_refl.
Defined.

Lemma Write_keeps_writer_witness :
  let w := world [Fail "throttled"] in
  let r := Write 2 d12 ["a"] w in
  r = Some (None, d12, (default (None, d12, w) r).2) ∧
  count is_connecting (added w (default (None, d12, w) r).2) = 0%nat.
Proof.
  intros w r.
  assert (r = Some (None, d12, (default (None, d12, w) r).2)) as H1 by vm_refl.
  split; [assumption|].
  destruct (Write_keeps_writer (env := env) 2 d12 ["a"] w None d12
              (default (None, d12, w) r).2 H1) as (_ & _ & Hc).
  exact Hc.
Defined.

Lemma Write_clock_and_policy_witness :
  let d := mk_writer (Some tt) cols_id "1h" hour "ttl_at" [second] in
  let w := world [] in
  let r := Write 1 d ["a"; "b"] w in
  client d = Some tt ∧
  r = Some (None, d, (default (None, d, w) r).2) ∧
  count is_NextBackOff (added w (default (None, d, w) r).2) =
    count is_BatchWriteItem (added w (default (None, d, w) r).2).
Proof.
  intros d w r.
  assert (client d = Some tt) as H0 by reflexivity.
  assert (r = Some (None, d, (default (None, d, w) r).2)) as H1 by vm_refl.
  do 2 (split; [assumption|]).
  destruct (Write_clock_and_policy (env := env) 1 d ["a"; "b"] w tt None d
              (default (None, d, w) r).2 H0 H1) as (_ & Hc).
  exact Hc.
Defined.


Lemma Connect_errors_witness :
  let d := mk_writer None cols_id "1h" hour "ttl_at" [second] in
  client d = None ∧
  GetSession (sessionConfig_ (conf d)) (ext world_creating)
    = (inl tt, ext world_creating) ∧
  Connect d world_creating =
    (Some (errorString "dynamodb table 'events' must be active"), d,
     mkWorld (ext world_creating)
       [EvGetSession;
        EvDescribeTable (dynamodb.mkDescribeTableInput "events")]).
Proof.
  intros d.
  assert (client d = None) as H0 by reflexivity.
  assert (GetSession (sessionConfig_ (conf d)) (ext world_creating)
          = (inl tt, ext world_creating)) as H1 by vm_refl.
  do 2 (split; [assumption|]).
  destruct (Connect_errors (env := env) d world_creating H0) as (_ & _ & He).
  rewrite (He tt (ext world_creating)
             (Some (dynamodb.mkDescribeTableOutput
                      (Some (dynamodb.mkTableDescription (Some "CREATING")))))
             (ext world_creating) H1 ltac:(vm_refl) ltac:(discriminate)).
  vm_refl.
Defined.

Lemma NewDynamoDB_errors_witness :
  let c := config cols_id "soon" "ttl_at" (Some [second]) in
  Get_backoff (Config c) = inl (mkScript [second] [second]) ∧
  StringColumns c ≠ ∅ ∧ TTL c ≠ EmptyString ∧
  ParseDuration (TTL c) = inr (errorString "time: invalid duration soon") ∧
  NewDynamoDB c "benthos" tt (world []) =
    (inr (errorString "failed to parse TTL: time: invalid duration soon"),
     world []).
Proof.
  intros c.
  assert (Get_backoff (Config c) = inl (mkScript [second] [second])) as H0
    by reflexivity.
  assert (StringColumns c ≠ ∅) as H1 by exact cols_id_nonempty.
  assert (TTL c ≠ EmptyString) as H2 by discriminate.
  assert (ParseDuration (TTL c)
          = inr (errorString "time: invalid duration soon")) as H3 by vm_refl.
  do 4 (split; [assumption|]).
  destruct (NewDynamoDB_errors (env := env) c "benthos" tt (world []))
    as (_ & _ & He).
  rewrite (He _ _ H0 H1 H2 H3). vm_refl.
Defined.

Lemma new_writer_must_connect_witness :
  let c := config cols_id "1h" "ttl_at" (Some [second]) in
  let d := mk_writer None cols_id "1h" hour "ttl_at" [second] in
  NewDynamoDB c "benthos" tt (world []) = (inl d, world []) ∧
  Write 3 d ["a"] (world []) = Some (Some ErrNotConnected, d, world []).
Proof.
  intros c d.
  assert (NewDynamoDB c "benthos" tt (world []) = (inl d, world [])) as H0
    by vm_refl.
  split; [assumption|].
  destruct (new_writer_must_connect (env := env) c "benthos" tt (world []) d
              (world []) H0) as [Hw _].
  apply Hw.
Defined.

Lemma NewDynamoDBConfig_needs_columns_witness :
  let boff := mkScript (replicate 3 second) (replicate 3 second) in
  Get_backoff (Config NewDynamoDBConfig) = inl boff ∧ cols_id ≠ ∅ ∧
  NewDynamoDB NewDynamoDBConfig "benthos" tt (world []) =
    (inr (errorString "you must provide at least one column"), world []) ∧
  ∃ d,
    NewDynamoDB (with_table_columns "events" cols_id NewDynamoDBConfig)
      "benthos" tt (world []) = (inl d, world []) ∧
    backoff_ d = boff ∧ ttl d = 0.
Proof.
  intros boff.
  assert (Get_backoff (Config NewDynamoDBConfig) = inl boff) as H0 by vm_refl.
  do 2 (split; [first [assumption | exact cols_id_nonempty]|]).
  destruct (NewDynamoDBConfig_needs_columns (env := env) "benthos" tt
              (world []) boff "events" cols_id H0 cols_id_nonempty)
    as (He & d & Hd & _ & Hb & _ & Ht & _).
  split; [exact He|]. exists d. split; [exact Hd|]. split; assumption.
Defined.

End Examples.
